(** * threatstack-tool, [api.py]: the retry decorator and the API client

    A shallow embedding of [src/api.py].  Python exceptions are values of
    [exn]; a call either returns or raises ([outcome]).  Stateful code
    threads its state explicitly, and the retry wrapper also produces the
    list of things it did ([event]), so that invocations of the wrapped
    function and sleeps can be counted. *)

From stdpp Require Import gmap strings list fin_maps pretty.

Open Scope string_scope.
Open Scope list_scope.
Open Scope Z_scope.

(** ** JSON values, as [response.json()] returns them *)

#[warnings="-register-all"]
Inductive json : Type :=
| JNull
| JBool (b : bool)
| JInt (n : Z)
| JFloat (lit : string)
| JStr (s : string)
| JArr (items : list json)
| JObj (fields : gmap string json).

(** ** Exceptions *)

(** The exception classes the module names and the classes above them, with
    [COther] for a class defined elsewhere, by its name ([__module__] and
    [__qualname__]; a built-in class has no module in its name). *)
Inductive exc_class : Type :=
| CBaseException
| CException
| COSError
| CLookupError
| CRuntimeError
| CValueError
| CTypeError
| CNameError
| CKeyError
| CAttributeError
| CNotImplementedError
| CURLError
| CHTTPError
| CRateLimitedError
| CRetryLimitExceeded
| COther (name : string).

Global Instance exc_class_eq_dec : EqDecision exc_class.
Proof. solve_decision. Defined.

(** The names of the classes that have a constructor of their own.  An
    alias names the class itself: [IOError.__name__] is ['OSError']. *)
Definition class_names : list (string * exc_class) :=
  [("BaseException", CBaseException);
   ("Exception", CException);
   ("OSError", COSError);
   ("LookupError", CLookupError);
   ("RuntimeError", CRuntimeError);
   ("ValueError", CValueError);
   ("TypeError", CTypeError);
   ("NameError", CNameError);
   ("KeyError", CKeyError);
   ("AttributeError", CAttributeError);
   ("NotImplementedError", CNotImplementedError);
   ("urllib.error.URLError", CURLError);
   ("urllib.error.HTTPError", CHTTPError);
   ("api.RateLimitedError", CRateLimitedError);
   ("api.RetryLimitExceeded", CRetryLimitExceeded)].

(** The class of a given name. *)
Definition class_named (name : string) : exc_class :=
  match List.find (fun entry => String.eqb entry.1 name) class_names with
  | Some entry => entry.2
  | None => COther name
  end.

(** One value for each class: [COther "OSError"] is [OSError]. *)
Definition canonical (c : exc_class) : exc_class :=
  match c with
  | COther name => class_named name
  | _ => c
  end.

(** The classes above a class, nearest first: [KeyError] is a
    [LookupError], [NotImplementedError] a [RuntimeError], [URLError] an
    [OSError] and [HTTPError] a [URLError] ([urllib.error]), and the two
    classes of this module derive from [Exception] (lines 21 and 34).  What
    is above a class defined elsewhere is told by its objects. *)
Definition above (c : exc_class) : list exc_class :=
  match c with
  | CBaseException => []
  | CException => [CBaseException]
  | COSError | CLookupError | CRuntimeError | CValueError | CTypeError | CNameError
  | CAttributeError | CRateLimitedError | CRetryLimitExceeded =>
      [CException; CBaseException]
  | CKeyError => [CLookupError; CException; CBaseException]
  | CNotImplementedError => [CRuntimeError; CException; CBaseException]
  | CURLError => [COSError; CException; CBaseException]
  | CHTTPError => [CURLError; COSError; CException; CBaseException]
  | COther _ => []
  end.

(** Exception objects.  [RateLimitedError.__init__] (lines 25-28) takes and
    stores [message] and [error_code].  [RetryLimitExceeded] (lines 34-35)
    is a bare subclass of [Exception]: its only payload is the constructor
    argument.  [OtherError cls bases msg] is an object of the class named
    [cls]; when that class is defined elsewhere, [bases] are the classes
    above it, nearest first ([BaseException] apart).  [WithContext e c] is
    [e] raised while [c] was being handled: Python then stores [c] in
    [e.__context__]; every other object has no context. *)
Inductive exn : Type :=
| ValueError (msg : string)
| TypeError (msg : string)
| NameError (name : string)
| KeyError (key : json)
| AttributeError (msg : string)
| NotImplementedError
| URLError (reason : string)
| RateLimitedError (message : string) (error_code : Z)
| RetryLimitExceeded (msg : string)
| OtherError (cls : string) (bases : list exc_class) (msg : string)
| WithContext (e : exn) (context : exn).

(** [type(e)]. *)
Fixpoint class_of (e : exn) : exc_class :=
  match e with
  | ValueError _ => CValueError
  | TypeError _ => CTypeError
  | NameError _ => CNameError
  | KeyError _ => CKeyError
  | AttributeError _ => CAttributeError
  | NotImplementedError => CNotImplementedError
  | URLError _ => CURLError
  | RateLimitedError _ _ => CRateLimitedError
  | RetryLimitExceeded _ => CRetryLimitExceeded
  | OtherError cls _ _ => class_named cls
  | WithContext e _ => class_of e
  end.

(** The class of an object followed by the classes above it
    ([type(e).__mro__] without [object]). *)
Fixpoint mro (e : exn) : list exc_class :=
  match e with
  | OtherError cls bases _ =>
      match class_named cls with
      | COther name => COther name :: (canonical <$> bases) ++ [CBaseException]
      | c => c :: above c
      end
  | WithContext e _ => mro e
  | _ => class_of e :: above (class_of e)
  end.

(** [isinstance(e, c)]. *)
Definition isinstance (e : exn) (c : exc_class) : bool :=
  existsb (fun d => bool_decide (d = canonical c)) (mro e).

(** [except exc as msg] with [exc] a tuple of classes: the clause is
    entered when the raised object is an instance of one of them. *)
Definition caught (exc : list exc_class) (e : exn) : bool :=
  existsb (isinstance e) exc.

Inductive outcome (A : Type) : Type :=
| Ret (v : A)
| Raise (e : exn).
Arguments Ret {A} v.
Arguments Raise {A} e.

Definition bind {A B : Type} (o : outcome A) (k : A -> outcome B) : outcome B :=
  match o with
  | Ret v => k v
  | Raise e => Raise e
  end.

(** A [raise] inside the handler of [context]: the new exception gets
    [context] as its [__context__]. *)
Definition in_handler {A : Type} (context : exn) (o : outcome A) : outcome A :=
  match o with
  | Ret v => Ret v
  | Raise e => Raise (WithContext e context)
  end.

(** [raise <expression>]: the expression is evaluated, which may itself
    raise, and its value is raised. *)
Definition raise_ {A : Type} (o : outcome exn) : outcome A :=
  match o with
  | Ret e => Raise e
  | Raise e => Raise e
  end.

(** A call [RateLimitedError(...)] against [__init__(self, message,
    error_code)] (line 25): an argument that the call does not supply is
    [None] here, and both are required. *)
Definition new_RateLimitedError (message : option string) (error_code : option Z)
  : outcome exn :=
  match message, error_code with
  | Some m, Some c => Ret (RateLimitedError m c)
  | Some _, None =>
      Raise (TypeError
        "RateLimitedError.__init__() missing 1 required positional argument: 'error_code'")
  | None, Some _ =>
      Raise (TypeError
        "RateLimitedError.__init__() missing 1 required positional argument: 'message'")
  | None, None =>
      Raise (TypeError
        "RateLimitedError.__init__() missing 2 required positional arguments: 'message' and 'error_code'")
  end.

(** ** The retry decorator (lines 38-88) *)

Section Retry.
(** [St] is the state the wrapped function acts on, [V] the values it
    returns and [D] the values [sleep] accepts. *)
Context {St V D : Type}.

(** What [f'{delay}'] prints. *)
Variable fmt_delay : D -> string.

(** The name [delay] is neither a parameter nor a local of [retry], [_f],
    [new_f] or [call]: Python looks it up in the module namespace each time
    lines 69 and 78 run.  [delay] is the result of that lookup, [None]
    when the name is unbound.  Line 69 is inside the handler of line 66, so
    the [NameError] it then raises has the caught exception as its context;
    line 78 is outside any handler. *)
Variable delay : option D.

(** Python's [None], the initial value of [res] (line 59). *)
Variable py_None : V.

Definition operation : Type := St -> outcome V * St.

(** What a wrapped call does, in order: an invocation of [f] (line 64),
    [logging.info] (line 67), [print] (line 68), [sleep] (line 69). *)
Inductive event : Type :=
| EvCall
| EvLog (e : exn)
| EvPrint (e : exn)
| EvSleep (d : D).

Definition is_call (ev : event) : bool :=
  match ev with EvCall => true | _ => false end.

Definition is_sleep (ev : event) : bool :=
  match ev with EvSleep _ => true | _ => false end.

Definition invocations (tr : list event) : nat := length (filter is_call tr).
Definition sleeps (tr : list event) : nat := length (filter is_sleep tr).

(** [call] (lines 61-70).  The result is what [call] returns or raises,
    the new value of the nonlocal [res], the new state and the events. *)
Definition call (exc : list exc_class) (f : operation) (res : V) (s : St)
  : outcome bool * V * St * list event :=
  match f s with
  | (Ret v, s') => (Ret true, v, s', [EvCall])
  | (Raise e, s') =>
      if caught exc e then
        match delay with
        | Some d => (Ret false, res, s', [EvCall; EvLog e; EvPrint e; EvSleep d])
        | None =>
            (Raise (WithContext (NameError "delay") e), res, s', [EvCall; EvLog e; EvPrint e])
        end
      else (Raise e, res, s', [EvCall])
  end.

(** The argument of [RetryLimitExceeded] (line 78). *)
Definition exceeded_msg (tries : Z) (d : D) : string :=
  "Exceeded max of " +:+ pretty tries +:+
  " tries. Raise the delay limit of " +:+ fmt_delay d +:+ " or number of tries".

(** [for _ in range(tries): ... else: raise ...] (lines 73-79), on the
    number of iterations left. *)
Fixpoint attempts (exc : list exc_class) (tries : Z) (f : operation)
    (n : nat) (res : V) (s : St) : outcome V * St * list event :=
  match n with
  | O =>
      match delay with
      | Some d => (Raise (RetryLimitExceeded (exceeded_msg tries d)), s, [])
      | None => (Raise (NameError "delay"), s, [])
      end
  | S n' =>
      match call exc f res s with
      | (Ret true, res', s', tr) => (Ret res', s', tr)
      | (Ret false, res', s', tr) =>
          match attempts exc tries f n' res' s' with
          | (o, s'', tr') => (o, s'', tr ++ tr')
          end
      | (Raise e, _, s', tr) => (Raise e, s', tr)
      end
  end.

(** [while not call(): pass else: return res] (lines 81-84).  The loop has
    no bound of its own; [fuel] bounds the iterations the model follows,
    and [None] means the loop was still running when it ran out. *)
Fixpoint forever (exc : list exc_class) (f : operation)
    (fuel : nat) (res : V) (s : St) : option (outcome V * St * list event) :=
  match fuel with
  | O => None
  | S fuel' =>
      match call exc f res s with
      | (Ret true, res', s', tr) => Some (Ret res', s', tr)
      | (Ret false, res', s', tr) =>
          match forever exc f fuel' res' s' with
          | Some (o, s'', tr') => Some (o, s'', tr ++ tr')
          | None => None
          end
      | (Raise e, _, s', tr) => Some (Raise e, s', tr)
      end
  end.

Definition wrapped : Type := nat -> St -> option (outcome V * St * list event).

(** [new_f] (lines 58-84). *)
Definition new_f (exc : list exc_class) (tries : Z) (f : operation) : wrapped :=
  fun fuel s =>
    if 0 <? tries then Some (attempts exc tries f (Z.to_nat tries) py_None s)
    else forever exc f fuel py_None s.

(** [_f] (lines 56-86), the decorator proper. *)
Definition _f (exc : list exc_class) (tries : Z) : operation -> wrapped :=
  new_f exc tries.

(** [retry] (lines 38-88). *)
Definition retry (exc : list exc_class) (tries : Z) : outcome (operation -> wrapped) :=
  if tries <? 0 then
    Raise (ValueError ("Expected positive `tries` values, received: " +:+ pretty tries))
  else Ret (_f exc tries).

(** The keywords the decorator lines of the file pass to [retry]
    (lines 129, 252, 256, 260). *)
Record retry_kwargs : Type := { kw_tries : option Z; kw_delay : option D }.

(** A call [retry(exc, **kw)] against the signature [retry(exc, tries=3)]:
    [delay] is not a parameter. *)
Definition retry_call (exc : list exc_class) (kw : retry_kwargs)
  : outcome (operation -> wrapped) :=
  match kw_delay kw with
  | Some _ => Raise (TypeError "retry() got an unexpected keyword argument 'delay'")
  | None => retry exc (default 3 (kw_tries kw))
  end.

(** [@decorator def f]: the decorator expression is evaluated, then called
    on the function.  When the expression raises, no function results. *)
Definition decorate (decorator : outcome (operation -> wrapped)) (f : operation)
  : outcome wrapped :=
  bind decorator (fun d => Ret (d f)).

(** A call of a decorated function.  When the decorator expression raised,
    there is no function to call: the model reports that exception. *)
Definition invoke (method : outcome wrapped) : wrapped :=
  fun fuel s =>
    match method with
    | Ret g => g fuel s
    | Raise e => Some (Raise e, s, [])
    end.

(** The operations of the first testable property: [f] raises something
    retryable on each of its first [k] invocations from [s] and returns
    [v] on the next one. *)
Fixpoint fails_then_returns (exc : list exc_class) (f : operation)
    (k : nat) (s : St) (v : V) : Prop :=
  match k with
  | O => (f s).1 = Ret v
  | S k' => exists e, (f s).1 = Raise e /\ caught exc e = true /\
                      fails_then_returns exc f k' (f s).2 v
  end.

(** The state after [n] invocations. *)
Fixpoint state_after (f : operation) (n : nat) (s : St) : St :=
  match n with
  | O => s
  | S n' => state_after f n' (f s).2
  end.

(** [f] raises something retryable on each of its first [n] invocations
    from [s]. *)
Fixpoint fails_n (exc : list exc_class) (f : operation) (n : nat) (s : St) : Prop :=
  match n with
  | O => True
  | S n' => exists e, (f s).1 = Raise e /\ caught exc e = true /\
                      fails_n exc f n' (f s).2
  end.

End Retry.

(** ** Operations on JSON values *)

Definition is_substring (sub s : string) : bool :=
  match String.index 0 sub s with
  | Some _ => true
  | None => false
  end.

Definition type_name (data : json) : string :=
  match data with
  | JNull => "NoneType"
  | JBool _ => "bool"
  | JInt _ => "int"
  | JFloat _ => "float"
  | JStr _ => "str"
  | JArr _ => "list"
  | JObj _ => "dict"
  end.

(** [field in data] for a string [field]. *)
Definition contains (field : string) (data : json) : outcome bool :=
  match data with
  | JObj m => Ret (bool_decide (is_Some (m !! field)))
  | JArr l =>
      Ret (existsb (fun x => match x with JStr s => String.eqb s field | _ => false end) l)
  | JStr s => Ret (is_substring field s)
  | _ => Raise (TypeError ("argument of type '" +:+ type_name data +:+ "' is not iterable"))
  end.

(** [data.pop(field)] for a string [field]; the result is [data] after the
    call. *)
Definition pop (field : string) (data : json) : outcome json :=
  match data with
  | JObj m =>
      match m !! field with
      | Some _ => Ret (JObj (delete field m))
      | None => Raise (KeyError (JStr field))
      end
  | JArr _ => Raise (TypeError "'str' object cannot be interpreted as an integer")
  | _ => Raise (AttributeError ("'" +:+ type_name data +:+ "' object has no attribute 'pop'"))
  end.

(** [for field in fields: if field in data: data.pop(field)]
    (lines 186-188, 209-211, 229-231, 247-249). *)
Fixpoint pop_fields (fields : list string) (data : json) : outcome json :=
  match fields with
  | [] => Ret data
  | field :: rest =>
      bind (contains field data) (fun present =>
        if present : bool then bind (pop field data) (pop_fields rest)
        else pop_fields rest data)
  end.

(** A [for] loop whose body rewrites the element it visits; the loop ends at
    the first exception. *)
Fixpoint for_each {A : Type} (body : A -> outcome A) (l : list A) : outcome (list A) :=
  match l with
  | [] => Ret []
  | x :: rest =>
      bind (body x) (fun x' => bind (for_each body rest) (fun rest' => Ret (x' :: rest')))
  end.

(** [data[key]] for a string [key]. *)
Definition getitem (data : json) (key : string) : outcome json :=
  match data with
  | JObj m =>
      match m !! key with
      | Some v => Ret v
      | None => Raise (KeyError (JStr key))
      end
  | JArr _ => Raise (TypeError "list indices must be integers or slices, not str")
  | JStr _ => Raise (TypeError "string indices must be integers, not 'str'")
  | _ => Raise (TypeError ("'" +:+ type_name data +:+ "' object is not subscriptable"))
  end.

Definition ruleset_fields : list string := ["updatedAt"; "createdAt"].
Definition rule_fields : list string := ["rulesetId"; "updatedAt"; "createdAt"].
Definition tag_fields : list string := ["errors"].

Definition chars (s : string) : list json :=
  (fun c => JStr (String c EmptyString)) <$> String.list_ascii_of_string s.

(** [for i, rule in enumerate(rules): <pop the fields of rules[i]>]
    (lines 206-211); the result is [rules] after the loop.  A list is visited
    element by element.  Iterating a dict yields its keys, and [rules[0]] is
    then a lookup of the integer [0] among string keys.  Iterating a string
    yields its characters, which are strings again. *)
Definition filter_each (rules : json) : outcome json :=
  match rules with
  | JArr l => bind (for_each (pop_fields rule_fields) l) (fun l' => Ret (JArr l'))
  | JObj rm => if bool_decide (size rm = 0%nat) then Ret rules else Raise (KeyError (JInt 0))
  | JStr s => bind (for_each (pop_fields rule_fields) (chars s)) (fun _ => Ret rules)
  | _ => Raise (TypeError ("'" +:+ type_name rules +:+ "' object is not iterable"))
  end.

(** [data] once the object it holds under [key] has become [v]. *)
Definition updated (data : json) (key : string) (v : json) : json :=
  match data with
  | JObj m => JObj (<[key := v]> m)
  | _ => data
  end.

(** Lines 206-211 of [get_ruleset_rules]: the loop runs on the object
    [data['rules']], which it changes in place. *)
Definition filter_rules (data : json) : outcome json :=
  bind (getitem data "rules") (fun rules =>
    bind (filter_each rules) (fun rules' => Ret (updated data "rules" rules'))).

(** ** The client (lines 91-262) *)

Record credentials : Type :=
  { cred_id : string; cred_key : string; cred_algorithm : string }.

(** What the client reads of a [requests] response: [json_] is the result
    of [response.json()], [None] when the body does not parse and the call
    raises [JSONDecodeError]. *)
Record response : Type :=
  { status_code : Z; text : string; reason : string; json_ : option json }.

(** The exception classes of line 129. *)
Definition get_exc : list exc_class := [CURLError; CRateLimitedError].

Section Client.
(** [W] is the world outside the process (clock, entropy, network), [D]
    the values [sleep] accepts, [Sender] the class of the signing library
    with its attribute [request_header]. *)
Context {W D Sender : Type}.
Variable fmt_delay : D -> string.
Variable delay : option D.
Variable request_header : Sender -> string.

(** [mohawk.Sender(credentials=, url=, method=, always_hash_content=,
    content_type=, ext=)]. *)
Variable mohawk_Sender :
  credentials -> string -> string -> bool -> string -> string -> W -> outcome Sender * W.

(** [requests.get(url=, headers=)]. *)
Variable requests_get :
  string -> list (string * option string) -> W -> outcome response * W.

(** The [JSONDecodeError] that [response.json()] raises on a response whose
    body does not parse. *)
Variable decode_error : response -> exn.

(** Line 154 reads [raise RateLimitedError(message=)]: the expression after
    [message=] is not in the source.  [line_154_message] stands for it:
    [None] when the call supplies nothing, [Some m] when the keyword is
    given a value [m]. *)
Variable line_154_message : option string.

(** The literal [30.0] of lines 252, 256 and 260. *)
Variable thirty : D.

Record API : Type :=
  { _user : string;
    _key : string;
    _ext : string;
    _credentials : credentials;
    _sender : option Sender;
    _header : option string }.

(** [API.__init__] (lines 95-107). *)
Definition __init__ (user_id api_key org_id : string) : API :=
  {| _user := user_id;
     _key := api_key;
     _ext := org_id;
     _credentials :=
       {| cred_id := user_id; cred_key := api_key; cred_algorithm := "sha256" |};
     _sender := None;
     _header := None |}.

(** [API._update_sender] (lines 109-127). *)
Definition _update_sender (self : API) (url : string) (w : W) : outcome unit * (API * W) :=
  match mohawk_Sender (_credentials self) url "GET" false "application/json" (_ext self) w with
  | (Ret sender, w') =>
      (Ret tt,
       ({| _user := _user self;
           _key := _key self;
           _ext := _ext self;
           _credentials := _credentials self;
           _sender := Some sender;
           _header := Some (request_header sender) |}, w'))
  | (Raise e, w') => (Raise e, (self, w'))
  end.

(** The argument of [URLError] (line 156). *)
Definition invalid_json_msg (r : response) : string :=
  "Did not get valid JSON in response: " +:+
  (if String.eqb (text r) EmptyString then reason r else text r) +:+
  " ~ " +:+ pretty (status_code r).

(** The function that line 129 decorates (lines 130-157).  Lines 153-157
    run inside the handler of line 152.  The call of line 154 passes no
    [error_code], whatever stands after [message=]. *)
Definition _get_wrapped (url : string) : @operation (API * W) json :=
  fun '(self, w) =>
    match _update_sender self url w with
    | (Raise e, st) => (Raise e, st)
    | (Ret _, (self', w1)) =>
        match requests_get url
                [("Authorization", _header self');
                 ("Content-Type", Some "application/json")] w1 with
        | (Raise e, w2) => (Raise e, (self', w2))
        | (Ret r, w2) =>
            match json_ r with
            | Some data => (Ret data, (self', w2))
            | None =>
                (in_handler (decode_error r)
                   (if status_code r =? 429
                    then raise_ (new_RateLimitedError line_154_message None)
                    else Raise (URLError (invalid_json_msg r))),
                 (self', w2))
            end
        end
    end.

(** [API._get] (lines 129-157). *)
Definition _get (url : string) : outcome (@wrapped (API * W) json D) :=
  decorate
    (retry_call fmt_delay delay JNull get_exc
       {| kw_tries := Some 3; kw_delay := None |})
    (_get_wrapped url).

(** What follows a call of [_get] in each read operation. *)
Definition then_ (k : json -> outcome json)
    (r : option (outcome json * (API * W) * list (@event D)))
  : option (outcome json * (API * W) * list (@event D)) :=
  match r with
  | Some (o, s, tr) => Some (bind o k, s, tr)
  | None => None
  end.

(** [API.get_rulesets] (lines 159-171). *)
Definition get_rulesets : @wrapped (API * W) json D :=
  fun fuel s => invoke (_get "https://api.threatstack.com/v2/rulesets") fuel s.

(** [API.get_ruleset] (lines 173-189). *)
Definition get_ruleset (ruleset_id : string) : @wrapped (API * W) json D :=
  fun fuel s =>
    then_ (pop_fields ruleset_fields)
      (invoke (_get ("https://api.threatstack.com/v2/rulesets/" +:+ ruleset_id)) fuel s).

(** [API.get_ruleset_rules] (lines 191-213). *)
Definition get_ruleset_rules (ruleset_id : string) : @wrapped (API * W) json D :=
  fun fuel s =>
    then_ filter_rules
      (invoke (_get ("https://api.threatstack.com/v2/rulesets/" +:+ ruleset_id +:+ "/rules"))
         fuel s).

(** [API.get_rule] (lines 215-232). *)
Definition get_rule (ruleset_id rule_id : string) : @wrapped (API * W) json D :=
  fun fuel s =>
    then_ (pop_fields rule_fields)
      (invoke (_get ("https://api.threatstack.com/v2/rulesets/" +:+ ruleset_id +:+
                     "/rules/" +:+ rule_id)) fuel s).

(** [API.get_rule_tags] (lines 234-250). *)
Definition get_rule_tags (rule_id : string) : @wrapped (API * W) json D :=
  fun fuel s =>
    then_ (pop_fields tag_fields)
      (invoke (_get ("https://api.threatstack.com/v2/rules/" +:+ rule_id +:+ "/tags")) fuel s).

(** The body [...] of the three write stubs (lines 254, 258, 262): it
    evaluates the constant and returns [None]. *)
Definition stub : @operation (API * W) json := fun s => (Ret JNull, s).

(** The decorator expression of lines 252, 256 and 260,
    [retry(URLError, tries=3, delay=30.0)]. *)
Definition write_decorator
  : outcome (@operation (API * W) json -> @wrapped (API * W) json D) :=
  retry_call fmt_delay delay JNull [CURLError]
    {| kw_tries := Some 3; kw_delay := Some thirty |}.

(** [API._put], [API._delete], [API._post] (lines 252-262). *)
Definition _put : outcome (@wrapped (API * W) json D) := decorate write_decorator stub.
Definition _delete : outcome (@wrapped (API * W) json D) := decorate write_decorator stub.
Definition _post : outcome (@wrapped (API * W) json D) := decorate write_decorator stub.

End Client.

(** [paginate] (lines 265-270). *)
Definition paginate {F : Type} (f : F) : outcome json := Raise NotImplementedError.

(** The keys [fields] removed from a dict one after the other, which is what
    the loop of [pop_fields] comes to on a dict. *)
Definition strip (fields : list string) (m : gmap string json) : gmap string json :=
  fold_left (fun acc field => delete field acc) fields m.

(** What the [n]-th invocation of [f] from [s] returns or raises
    ([1 <= n]). *)
Definition nth_result {St V : Type} (f : @operation St V) (n : nat) (s : St) : outcome V :=
  (f (state_after f (Nat.pred n) s)).1.

(** The JSON values that are neither containers nor strings. *)
Definition is_scalar (data : json) : bool :=
  match data with
  | JNull | JBool _ | JInt _ | JFloat _ => true
  | _ => false
  end.

(** ** Fixtures: concrete operations and a concrete world *)

(** An operation on a call counter: it raises [URLError] while fewer than
    [k] calls were made and returns [v] afterwards. *)
Definition flaky (k : nat) (v : Z) : @operation nat (option Z) :=
  fun n =>
    if (n <? k)%nat then (Raise (URLError "connection reset"), S n) else (Ret (Some v), S n).

Definition always_raises (e : exn) : @operation nat (option Z) :=
  fun n => (Raise e, S n).

(** Delays in whole seconds. *)
Definition fmt_seconds : Z -> string := pretty.

(** A signing library whose header embeds the clock, which it advances. *)
Definition clock_Sender (c : credentials) (url method : string) (always_hash : bool)
    (content_type ext : string) (now : nat) : outcome string * nat :=
  (Ret ("Hawk id=" +:+ cred_id c +:+ ", ts=" +:+ pretty now +:+ ", ext=" +:+ ext), S now).

(** A network that answers every request with [r]. *)
Definition canned (r : response) (url : string) (headers : list (string * option string))
    (now : nat) : outcome response * nat :=
  (Ret r, now).

Definition throttled : response :=
  {| status_code := 429; text := "slow down"; reason := "Too Many Requests"; json_ := None |}.

Definition a_ruleset : gmap string json :=
  {[ "id" := JStr "rs-1"; "name" := JStr "Base"; "updatedAt" := JStr "2020-01-02";
     "rules" := JArr [JStr "r-1"] ]}.

Definition a_rule : gmap string json :=
  {[ "id" := JStr "r-1"; "rulesetId" := JStr "rs-1"; "createdAt" := JStr "2020-01-01";
     "severityOfAlert" := JInt 2 ]}.

Definition a_listing : gmap string json :=
  {[ "rules" := JArr [JObj a_rule; JObj ∅]; "token" := JNull ]}.

Definition ok (data : json) : response :=
  {| status_code := 200; text := "{...}"; reason := "OK"; json_ := Some data |}.

Definition server_error : response :=
  {| status_code := 500; text := "oops"; reason := "Internal Server Error"; json_ := None |}.

Definition client0 : @API string := __init__ "user" "key" "org".

(** The exception of the standard [json] module for a body that is no
    JSON. *)
Definition fx_decode_error (r : response) : exn :=
  OtherError "json.decoder.JSONDecodeError" [CValueError; CException]
    "Expecting value: line 1 column 1 (char 0)".

Definition fx_get_wrapped net :=
  @_get_wrapped nat string (fun h => h) clock_Sender net fx_decode_error None.
Definition fx_get net :=
  @_get nat Z string fmt_seconds None (fun h => h) clock_Sender net fx_decode_error None.
Definition fx_get_ruleset net :=
  @get_ruleset nat Z string fmt_seconds None (fun h => h) clock_Sender net
    fx_decode_error None.
Definition fx_get_ruleset_rules net :=
  @get_ruleset_rules nat Z string fmt_seconds None (fun h => h) clock_Sender net
    fx_decode_error None.
Definition fx_put := @_put nat Z string fmt_seconds None 30.

(** More of the clock world: the two other normalizing reads, a network
    that refuses the connection, a 429 response with a JSON body, a client
    that still holds the signer of an earlier request, and more data. *)
Definition fx_get_rule net :=
  @get_rule nat Z string fmt_seconds None (fun h => h) clock_Sender net
    fx_decode_error None.
Definition fx_get_rule_tags net :=
  @get_rule_tags nat Z string fmt_seconds None (fun h => h) clock_Sender net
    fx_decode_error None.
Definition fx_get_bound net :=
  @_get nat Z string fmt_seconds (Some 30) (fun h => h) clock_Sender net
    fx_decode_error None.

Definition refusing (url : string) (headers : list (string * option string)) (now : nat)
  : outcome response * nat :=
  (Raise (OtherError "requests.exceptions.ConnectionError"
            [COther "requests.exceptions.RequestException"; COSError; CException]
            "connection refused"), now).

Definition throttled_json : response :=
  {| status_code := 429; text := "{}"; reason := "Too Many Requests";
     json_ := Some (JObj ∅) |}.

Definition stale_client : @API string :=
  {| _user := "user"; _key := "key"; _ext := "org";
     _credentials := _credentials client0;
     _sender := Some "Hawk id=user, ts=0, ext=org";
     _header := Some "Hawk id=user, ts=0, ext=org" |}.

Definition some_tags : gmap string json :=
  {[ "tags" := JArr [JStr "env:prod"]; "errors" := JArr [JStr "unknown agent"] ]}.

Definition clean_listing : gmap string json :=
  {[ "rules" := JArr [JObj {[ "id" := JStr "r-1" ]}; JObj ∅]; "token" := JNull ]}.

Definition broken_listing : gmap string json :=
  {[ "rules" := JArr [JObj a_rule; JNull; JObj a_rule] ]}.

(** * Properties of the retry decorator *)

Section RetryFacts.
Context {St V D : Type}.
Variable fmt_delay : D -> string.
Variable delay : option D.
Variable py_None : V.

Local Abbreviation operation := (@operation St V).
Local Abbreviation call := (@call St V D delay).
Local Abbreviation attempts := (@attempts St V D fmt_delay delay).
Local Abbreviation forever := (@forever St V D delay).
Local Abbreviation new_f := (@new_f St V D fmt_delay delay py_None).
Local Abbreviation retry := (@retry St V D fmt_delay delay py_None).
Local Abbreviation exceeded_msg := (@exceeded_msg D fmt_delay).

Implicit Types (f : operation) (s : St) (res v : V) (tr : list (@event D)).

Lemma invocations_app tr tr' :
  invocations (tr ++ tr') = (invocations tr + invocations tr')%nat.
Proof. unfold invocations. by rewrite filter_app, length_app. Qed.

Lemma sleeps_app tr tr' : sleeps (tr ++ tr') = (sleeps tr + sleeps tr')%nat.
Proof. unfold sleeps. by rewrite filter_app, length_app. Qed.

(** The three ways out of [call]. *)
Lemma call_returns exc f res s v :
  (f s).1 = Ret v -> call exc f res s = (Ret true, v, (f s).2, [EvCall]).
Proof. unfold call. destruct (f s) as [o s']; simpl. by intros ->. Qed.

Lemma call_retries exc f res s e d :
  (f s).1 = Raise e -> caught exc e = true -> delay = Some d ->
  call exc f res s = (Ret false, res, (f s).2, [EvCall; EvLog e; EvPrint e; EvSleep d]).
Proof.
  unfold call. destruct (f s) as [o s']; simpl. by intros -> -> ->.
Qed.

Lemma call_propagates exc f res s e :
  (f s).1 = Raise e -> caught exc e = false ->
  call exc f res s = (Raise e, res, (f s).2, [EvCall]).
Proof.
  unfold call. destruct (f s) as [o s']; simpl. by intros -> ->.
Qed.

(** With [delay] unbound, the handler of line 66 does not reach its
    [return False]: line 69 raises [NameError]. *)
Lemma call_unbound_delay exc f res s e :
  (f s).1 = Raise e -> caught exc e = true -> delay = None ->
  call exc f res s
    = (Raise (WithContext (NameError "delay") e), res, (f s).2, [EvCall; EvLog e; EvPrint e]).
Proof.
  unfold call. destruct (f s) as [o s']; simpl. by intros -> -> ->.
Qed.

Lemma fails_then_returns_fails_n exc f k s v :
  fails_then_returns exc f k s v -> fails_n exc f k s.
Proof.
  revert s. induction k as [|k IH]; intros s; simpl; [done|].
  intros (e & He & Hc & Hk). exists e. auto.
Qed.

(** The bounded loop on an operation that recovers in time. *)
Lemma attempts_recovers exc tries f k : forall n res s v,
  fails_then_returns exc f k s v ->
  k = 0%nat \/ is_Some delay ->
  (k < n)%nat ->
  exists tr,
    attempts exc tries f n res s = (Ret v, state_after f (S k) s, tr) /\
    invocations tr = S k /\ sleeps tr = k.
Proof.
  induction k as [|k IH]; intros n res s v Hf Hd Hn;
    (destruct n as [|n]; [lia|]); simpl in Hf |- *.
  - rewrite (call_returns _ _ _ _ _ Hf). by exists [EvCall].
  - destruct Hf as (e & He & Hc & Hk).
    destruct Hd as [|[d Hd]]; [done|].
    rewrite (call_retries _ _ _ _ _ _ He Hc Hd).
    destruct (IH n res (f s).2 v Hk) as (tr & -> & Hi & Hs); [eauto | lia |].
    eexists. split; [reflexivity|].
    rewrite invocations_app, sleeps_app, Hi, Hs. done.
Qed.

(** The bounded loop on an operation that fails every time. *)
Lemma attempts_exhausted exc tries f d : forall n res s,
  delay = Some d ->
  fails_n exc f n s ->
  exists tr,
    attempts exc tries f n res s =
      (Raise (RetryLimitExceeded (exceeded_msg tries d)), state_after f n s, tr) /\
    invocations tr = n /\ sleeps tr = n.
Proof.
  induction n as [|n IH]; intros res s Hd Hf; simpl in Hf |- *.
  - rewrite Hd. by exists [].
  - destruct Hf as (e & He & Hc & Hn).
    rewrite (call_retries _ _ _ _ _ _ He Hc Hd).
    destruct (IH res (f s).2 Hd Hn) as (tr & -> & Hi & Hs).
    eexists. split; [reflexivity|].
    rewrite invocations_app, sleeps_app, Hi, Hs. done.
Qed.

(** The unbounded loop returns once it is followed long enough. *)
Lemma forever_recovers exc f k : forall fuel res s v,
  fails_then_returns exc f k s v ->
  k = 0%nat \/ is_Some delay ->
  (k < fuel)%nat ->
  exists tr,
    forever exc f fuel res s = Some (Ret v, state_after f (S k) s, tr) /\
    invocations tr = S k /\ sleeps tr = k.
Proof.
  induction k as [|k IH]; intros fuel res s v Hf Hd Hn;
    (destruct fuel as [|fuel]; [lia|]); simpl in Hf |- *.
  - rewrite (call_returns _ _ _ _ _ Hf). by exists [EvCall].
  - destruct Hf as (e & He & Hc & Hk).
    destruct Hd as [|[d Hd]]; [done|].
    rewrite (call_retries _ _ _ _ _ _ He Hc Hd).
    destruct (IH fuel res (f s).2 v Hk) as (tr & -> & Hi & Hs); [eauto | lia |].
    eexists. split; [reflexivity|].
    rewrite invocations_app, sleeps_app, Hi, Hs. done.
Qed.

Lemma new_f_bounded exc tries f fuel s :
  0 < tries ->
  new_f exc tries f fuel s = Some (attempts exc tries f (Z.to_nat tries) py_None s).
Proof. intros H. unfold new_f. by rewrite (proj2 (Z.ltb_lt 0 tries) H). Qed.

Lemma new_f_unbounded exc f fuel s :
  new_f exc 0 f fuel s = forever exc f fuel py_None s.
Proof. reflexivity. Qed.

(** With [delay] unbound, as the module leaves it, the first retryable
    failure ends the call with [NameError], whatever [tries] is. *)
Lemma new_f_unbound_delay exc tries f fuel s e :
  delay = None -> 0 <= tries -> (0 < fuel)%nat ->
  (f s).1 = Raise e -> caught exc e = true ->
  new_f exc tries f fuel s =
    Some (Raise (WithContext (NameError "delay") e), (f s).2, [EvCall; EvLog e; EvPrint e]).
Proof.
  intros Hd Ht Hfuel He Hc. unfold new_f.
  destruct (0 <? tries) eqn:Hlt.
  - apply Z.ltb_lt in Hlt. destruct (Z.to_nat tries) as [|n] eqn:Hn; [lia|].
    simpl. by rewrite (call_unbound_delay _ _ _ _ _ He Hc Hd).
  - destruct fuel as [|fuel]; [lia|].
    simpl. by rewrite (call_unbound_delay _ _ _ _ _ He Hc Hd).
Qed.

(** X19.  An operation fails with a retryable exception on its first [k]
    invocations and returns [v] on the next one, and either [k = 0] or the
    name [delay] is bound.  Then (a) with [tries = k + 1] the
    wrapper returns [v] after exactly [k + 1] invocations; (b) with
    [tries = k] and [k > 0] it raises [RetryLimitExceeded] after exactly [k]
    invocations, so the operation is not invoked a [(k+1)]-th time; (c) with
    [tries = 0] the loop has no bound and returns [v] after exactly [k + 1]
    invocations, once it is followed for more than [k] iterations. *)
Theorem retry_bounded_deterministic exc f (k : nat) s v :
  fails_then_returns exc f k s v ->
  k = 0%nat \/ is_Some delay ->
  (forall fuel, exists tr,
      new_f exc (Z.of_nat k + 1) f fuel s = Some (Ret v, state_after f (S k) s, tr) /\
      invocations tr = S k) /\
  ((0 < k)%nat -> forall fuel, exists d tr,
      delay = Some d /\
      new_f exc (Z.of_nat k) f fuel s =
        Some (Raise (RetryLimitExceeded (exceeded_msg (Z.of_nat k) d)), state_after f k s, tr) /\
      invocations tr = k) /\
  (forall fuel, (k < fuel)%nat -> exists tr,
      new_f exc 0 f fuel s = Some (Ret v, state_after f (S k) s, tr) /\
      invocations tr = S k).
Proof.
  intros Hf Hd. repeat split.
  - intros fuel. rewrite new_f_bounded by lia.
    destruct (attempts_recovers exc (Z.of_nat k + 1) f k (Z.to_nat (Z.of_nat k + 1))
                py_None s v Hf Hd) as (tr & Ha & Hi & _); [lia|].
    exists tr. by rewrite Ha.
  - intros Hk fuel. destruct Hd as [|[d Hd]]; [lia|].
    rewrite new_f_bounded by lia.
    destruct (attempts_exhausted exc (Z.of_nat k) f d (Z.to_nat (Z.of_nat k)) py_None s Hd)
      as (tr & Ha & Hi & _).
    { rewrite Nat2Z.id. by eapply fails_then_returns_fails_n. }
    exists d, tr. rewrite Ha, Nat2Z.id in *. done.
  - intros fuel Hfuel. rewrite new_f_unbounded.
    destruct (forever_recovers exc f k fuel py_None s v Hf Hd Hfuel) as (tr & Ha & Hi & _).
    by exists tr.
Qed.

(** C3 (as amended).  With [delay] bound to [d] and [tries > 0], an
    operation that fails with a retryable exception on each of the [tries]
    invocations makes the wrapper raise [RetryLimitExceeded] after exactly
    [tries] invocations.  The exception holds one string, built from [tries]
    and [d] alone; nothing of what the operation raised is in it. *)
Theorem retry_exhausted_message exc tries f s d :
  delay = Some d ->
  0 < tries ->
  fails_n exc f (Z.to_nat tries) s ->
  forall fuel, exists tr,
    new_f exc tries f fuel s =
      Some (Raise (RetryLimitExceeded (exceeded_msg tries d)),
            state_after f (Z.to_nat tries) s, tr) /\
    invocations tr = Z.to_nat tries.
Proof.
  intros Hd Ht Hf fuel. rewrite new_f_bounded by done.
  destruct (attempts_exhausted exc tries f d (Z.to_nat tries) py_None s Hd Hf)
    as (tr & Ha & Hi & _).
  exists tr. by rewrite Ha.
Qed.

(** C4.  When a policy was built ([retry] returned a decorator) and the
    operation raises, on its first invocation, an exception that is not an
    instance of any class in [exc], the wrapped call raises that exception
    after exactly one invocation and without sleeping, whatever [tries] and
    [delay] are. *)
Theorem retry_non_retryable_bypass exc tries decorator f s e :
  retry exc tries = Ret decorator ->
  (f s).1 = Raise e ->
  caught exc e = false ->
  forall fuel, (0 < fuel)%nat ->
    decorator f fuel s = Some (Raise e, (f s).2, [EvCall]) /\
    invocations [@EvCall D] = 1%nat /\ sleeps [@EvCall D] = 0%nat.
Proof.
  intros Hr He Hc fuel Hfuel. split; [|done].
  unfold retry in Hr. destruct (tries <? 0); [done|].
  injection Hr as <-. unfold _f, new_f.
  destruct (0 <? tries) eqn:Hlt.
  - apply Z.ltb_lt in Hlt. destruct (Z.to_nat tries) as [|n] eqn:Hn; [lia|].
    simpl. by rewrite (call_propagates _ _ _ _ _ He Hc).
  - destruct fuel as [|fuel]; [lia|].
    simpl. by rewrite (call_propagates _ _ _ _ _ He Hc).
Qed.

(** C9.  For a negative [tries], [retry] raises [ValueError]: decorating
    yields no wrapped function, so the operation cannot have been invoked.
    For [tries = 0] and [tries > 0] decorating yields [new_f]. *)
Theorem retry_negative_tries exc tries f :
  (tries < 0 ->
   decorate (retry exc tries) f =
     Raise (ValueError ("Expected positive `tries` values, received: " +:+ pretty tries))) /\
  (0 <= tries -> decorate (retry exc tries) f = Ret (new_f exc tries f)).
Proof.
  unfold decorate, retry. split; intros H.
  - by rewrite (proj2 (Z.ltb_lt tries 0) H).
  - by rewrite (proj2 (Z.ltb_ge tries 0) H).
Qed.

End RetryFacts.

(** ** The retry properties at concrete operations *)

Lemma retry_bounded_deterministic_witness :
  fails_then_returns get_exc (flaky 2 7) 2%nat 0%nat (Some 7) /\
  (exists tr,
      new_f fmt_seconds (Some 30) None get_exc 3 (flaky 2 7) 0%nat 0%nat
        = Some (Ret (Some 7), 3%nat, tr) /\
      invocations tr = 3%nat) /\
  (exists d tr,
      Some 30 = Some d /\
      new_f fmt_seconds (Some 30) None get_exc 2 (flaky 2 7) 0%nat 0%nat
        = Some (Raise (RetryLimitExceeded (exceeded_msg fmt_seconds 2 d)), 2%nat, tr) /\
      invocations tr = 2%nat).
Proof.
  assert (Hf : fails_then_returns get_exc (flaky 2 7) 2%nat 0%nat (Some 7)).
  { simpl. eexists; repeat split. eexists; repeat split. }
  split; [exact Hf|].
  destruct (retry_bounded_deterministic fmt_seconds (Some 30) None get_exc
              (flaky 2 7) 2%nat 0%nat (Some 7) Hf (or_intror (mk_is_Some _ _ eq_refl)))
    as (Ha & Hb & _).
  split; [exact (Ha 0%nat) | exact (Hb (Nat.lt_0_succ 1) 0%nat)].
Defined.

(** C1.  The module as it stands, where nothing binds [delay], on an
    operation that raises [URLError] once and then returns 7 ([k = 1]).  With
    [tries = 2] the claim asks for the value after two invocations, with
    [tries = 1] for [RetryLimitExceeded]; either way the handler of line 66
    catches the [URLError], logs and prints it, and line 69 raises
    [NameError] after the one invocation. *)
Theorem retry_recoverable_failure_name_error :
  fails_then_returns get_exc (flaky 1 7) 1%nat 0%nat (Some 7) /\
  new_f fmt_seconds None None get_exc 2 (flaky 1 7) 0%nat 0%nat
    = Some (Raise (WithContext (NameError "delay") (URLError "connection reset")), 1%nat,
            [EvCall; EvLog (URLError "connection reset");
             EvPrint (URLError "connection reset")]) /\
  new_f fmt_seconds None None get_exc 1 (flaky 1 7) 0%nat 0%nat
    = Some (Raise (WithContext (NameError "delay") (URLError "connection reset")), 1%nat,
            [EvCall; EvLog (URLError "connection reset");
             EvPrint (URLError "connection reset")]).
Proof.
  split; [|split; reflexivity].
  simpl. eexists. repeat split.
Qed.

Lemma retry_exhausted_message_witness :
  fails_n get_exc (always_raises (URLError "timed out")) (Z.to_nat 3) 0%nat /\
  exists tr,
    new_f fmt_seconds (Some 30) None get_exc 3 (always_raises (URLError "timed out")) 0%nat 0%nat
      = Some (Raise (RetryLimitExceeded
                       "Exceeded max of 3 tries. Raise the delay limit of 30 or number of tries"),
              3%nat, tr) /\
    invocations tr = 3%nat.
Proof.
  assert (Hf : fails_n get_exc (always_raises (URLError "timed out")) (Z.to_nat 3) 0%nat).
  { simpl. repeat (eexists; repeat split). }
  split; [exact Hf|].
  exact (retry_exhausted_message fmt_seconds (Some 30) None get_exc 3
           (always_raises (URLError "timed out")) 0%nat 30 eq_refl eq_refl Hf 0%nat).
Defined.

(** C3, as stated: the raised exception would have to determine the last
    cause.  Two operations that fail for different reasons are run with
    [tries = 1] and [delay] bound (to 30); what the wrapper raises is the
    same for both, so no cause can be read from it. *)
Lemma retry_exhausted_cause_counterexample :
  new_f fmt_seconds (Some 30) None get_exc 1 (always_raises (URLError "timed out")) 0%nat 0%nat
    = Some (Raise (RetryLimitExceeded
                     "Exceeded max of 1 tries. Raise the delay limit of 30 or number of tries"),
            1%nat,
            [EvCall; EvLog (URLError "timed out"); EvPrint (URLError "timed out"); EvSleep 30]) /\
  ~ (exists cause_of : exn -> exn, forall reason,
        exists s tr e,
          new_f fmt_seconds (Some 30) None get_exc 1 (always_raises (URLError reason)) 0%nat 0%nat
            = Some (Raise e, s, tr) /\
          cause_of e = URLError reason).
Proof.
  split; [reflexivity|].
  intros (cause_of & H);
    destruct (H "timed out") as (s1 & tr1 & e1 & H1 & C1);
    destruct (H "refused") as (s2 & tr2 & e2 & H2 & C2);
    vm_compute in H1, H2;
    injection H1 as <- _ _; injection H2 as <- _ _;
    rewrite C1 in C2; discriminate.
Qed.

Lemma retry_non_retryable_bypass_witness :
  @retry nat (option Z) Z fmt_seconds None None get_exc 3
    = Ret (_f fmt_seconds None None get_exc 3) /\
  caught get_exc (KeyError (JStr "id")) = false /\
  _f fmt_seconds None None get_exc 3 (always_raises (KeyError (JStr "id"))) 1%nat 0%nat
    = Some (Raise (KeyError (JStr "id")), 1%nat, [EvCall]).
Proof.
  split; [reflexivity|]. split; [reflexivity|].
  exact (proj1 (retry_non_retryable_bypass fmt_seconds None None get_exc 3
                  (_f fmt_seconds None None get_exc 3)
                  (always_raises (KeyError (JStr "id"))) 0%nat (KeyError (JStr "id"))
                  eq_refl eq_refl eq_refl 1%nat (Nat.lt_0_succ 0))).
Defined.

Lemma retry_negative_tries_witness :
  decorate (retry fmt_seconds None None get_exc (-1)) (flaky 0 7)
    = Raise (ValueError "Expected positive `tries` values, received: -1") /\
  decorate (retry fmt_seconds None None get_exc 0) (flaky 0 7)
    = Ret (new_f fmt_seconds None None get_exc 0 (flaky 0 7)) /\
  decorate (retry fmt_seconds None None get_exc 3) (flaky 0 7)
    = Ret (new_f fmt_seconds None None get_exc 3 (flaky 0 7)).
Proof.
  split; [|split].
  - exact (proj1 (retry_negative_tries fmt_seconds None None get_exc (-1) (flaky 0 7)) eq_refl).
  - refine (proj2 (retry_negative_tries fmt_seconds None None get_exc 0 (flaky 0 7)) _).
    discriminate.
  - refine (proj2 (retry_negative_tries fmt_seconds None None get_exc 3 (flaky 0 7)) _).
    discriminate.
Defined.

(** * Properties of the field-stripping loops *)

Lemma pop_fields_dict fields (m : gmap string json) :
  pop_fields fields (JObj m) = Ret (JObj (strip fields m)).
Proof.
  revert m. induction fields as [|field rest IH]; intros m; [done|].
  simpl. case_bool_decide as Hin.
  - destruct Hin as [x Hx]. simpl. rewrite Hx. simpl. apply IH.
  - rewrite IH. do 3 f_equal.
    symmetry. apply delete_id. by apply eq_None_not_Some.
Qed.

Lemma lookup_strip fields (m : gmap string json) k :
  strip fields m !! k = if bool_decide (k ∈ fields) then None else m !! k.
Proof.
  revert m. induction fields as [|field rest IH]; intros m; [done|].
  unfold strip in *. simpl. rewrite IH.
  destruct (decide (k = field)) as [->|Hne].
  - rewrite lookup_delete_eq, (bool_decide_eq_true_2 (field ∈ field :: rest))
      by (apply elem_of_cons; auto).
    by case_bool_decide.
  - rewrite lookup_delete_ne by done.
    rewrite (bool_decide_ext (k ∈ field :: rest) (k ∈ rest)); [done|].
    rewrite elem_of_cons. split; [by intros [?|?] | by right].
Qed.

Lemma strip_idemp fields (m : gmap string json) :
  strip fields (strip fields m) = strip fields m.
Proof.
  apply map_eq. intros k. rewrite !lookup_strip. by case_bool_decide.
Qed.

Lemma for_each_dicts fields (rs : list (gmap string json)) :
  for_each (pop_fields fields) (JObj <$> rs) = Ret (JObj <$> (strip fields <$> rs)).
Proof.
  induction rs as [|r rs IH]; [done|].
  rewrite !fmap_cons. cbn [for_each]. rewrite pop_fields_dict. cbn [bind].
  by rewrite IH.
Qed.

Lemma filter_rules_listing (m : gmap string json) (rs : list (gmap string json)) :
  m !! "rules" = Some (JArr (JObj <$> rs)) ->
  filter_rules (JObj m)
    = Ret (JObj (<["rules" := JArr (JObj <$> (strip rule_fields <$> rs))]> m)).
Proof.
  intros Hr. unfold filter_rules, getitem. rewrite Hr. cbn [bind filter_each].
  by rewrite for_each_dicts.
Qed.

Lemma filter_rules_no_rules (m : gmap string json) :
  m !! "rules" = None -> filter_rules (JObj m) = Raise (KeyError (JStr "rules")).
Proof. intros Hr. unfold filter_rules, getitem. by rewrite Hr. Qed.

(** * Properties of the client *)

Section ClientFacts.
Context {W D Sender : Type}.
Variable fmt_delay : D -> string.
Variable delay : option D.
Variable request_header : Sender -> string.
Variable mohawk_Sender :
  credentials -> string -> string -> bool -> string -> string -> W -> outcome Sender * W.
Variable requests_get :
  string -> list (string * option string) -> W -> outcome response * W.
Variable decode_error : response -> exn.
Variable line_154_message : option string.

Local Abbreviation _update_sender := (@_update_sender W Sender request_header mohawk_Sender).
Local Abbreviation _get_wrapped :=
  (@_get_wrapped W Sender request_header mohawk_Sender requests_get decode_error
     line_154_message).
Local Abbreviation _get :=
  (@_get W D Sender fmt_delay delay request_header mohawk_Sender requests_get
     decode_error line_154_message).
Local Abbreviation get_ruleset :=
  (@get_ruleset W D Sender fmt_delay delay request_header mohawk_Sender requests_get
     decode_error line_154_message).
Local Abbreviation get_ruleset_rules :=
  (@get_ruleset_rules W D Sender fmt_delay delay request_header mohawk_Sender requests_get
     decode_error line_154_message).

Implicit Types (self : @API Sender) (w : W) (m : gmap string json).

(** What the decorated function does when the response has no JSON body. *)
Lemma _get_wrapped_no_json url self w sender w1 r w2 :
  mohawk_Sender (_credentials self) url "GET" false "application/json" (_ext self) w
    = (Ret sender, w1) ->
  requests_get url
    [("Authorization", Some (request_header sender)); ("Content-Type", Some "application/json")]
    w1 = (Ret r, w2) ->
  json_ r = None ->
  (_get_wrapped url (self, w)).1 =
    in_handler (decode_error r)
      (if status_code r =? 429 then raise_ (new_RateLimitedError line_154_message None)
       else Raise (URLError (invalid_json_msg r))).
Proof.
  intros Hs Hg Hj. unfold _get_wrapped, _update_sender.
  rewrite Hs. simpl. by rewrite Hg, Hj.
Qed.

(** The call of line 154 builds no exception: [error_code] is missing
    whatever the call gives for [message], so it raises [TypeError], which
    is not an instance of the classes of line 129. *)
Lemma line_154_type_error (context : exn) :
  exists msg,
    @in_handler json context (raise_ (new_RateLimitedError line_154_message None))
      = Raise (WithContext (TypeError msg) context) /\
    caught get_exc (WithContext (TypeError msg) context) = false.
Proof. destruct line_154_message; eexists; split; reflexivity. Qed.

(** C5.  When [_get] returns a dict [m], [get_ruleset] returns [m] without
    the keys [updatedAt] and [createdAt]: those two keys are absent from the
    result, every other key has the value it had in [m] (whether or not
    either key was present), and running the loop of lines 186-188 on the
    result again returns it unchanged. *)
Theorem get_ruleset_normalizes ruleset_id fuel s s' tr m :
  invoke (_get ("https://api.threatstack.com/v2/rulesets/" +:+ ruleset_id)) fuel s
    = Some (Ret (JObj m), s', tr) ->
  get_ruleset ruleset_id fuel s
    = Some (Ret (JObj (delete "createdAt" (delete "updatedAt" m))), s', tr) /\
  (forall k,
      delete "createdAt" (delete "updatedAt" m) !! k =
        if bool_decide (k = "updatedAt" \/ k = "createdAt") then None else m !! k) /\
  pop_fields ruleset_fields (JObj (delete "createdAt" (delete "updatedAt" m)))
    = Ret (JObj (delete "createdAt" (delete "updatedAt" m))).
Proof.
  intros Hg. change (delete "createdAt" (delete "updatedAt" m)) with (strip ruleset_fields m).
  repeat split.
  - unfold get_ruleset. rewrite Hg. cbn [then_ bind].
    by rewrite pop_fields_dict.
  - intros k. rewrite lookup_strip.
    rewrite (bool_decide_ext (k ∈ ruleset_fields) (k = "updatedAt" \/ k = "createdAt"));
      [done|].
    unfold ruleset_fields. rewrite !elem_of_cons, elem_of_nil. tauto.
  - by rewrite pop_fields_dict, strip_idemp.
Qed.

(** C6.  When [_get] returns a dict [m] whose [rules] entry is a list of
    [N] dicts, [get_ruleset_rules] returns [m] with that entry replaced by a
    list of [N] dicts, the [i]-th of which is the [i]-th rule without the
    keys [rulesetId], [updatedAt] and [createdAt] and with every other key
    unchanged; every other entry of [m] is unchanged. *)
Theorem get_ruleset_rules_elementwise ruleset_id fuel s s' tr m
    (rs : list (gmap string json)) :
  invoke (_get ("https://api.threatstack.com/v2/rulesets/" +:+ ruleset_id +:+ "/rules"))
    fuel s = Some (Ret (JObj m), s', tr) ->
  m !! "rules" = Some (JArr (JObj <$> rs)) ->
  exists rs' : list (gmap string json),
    get_ruleset_rules ruleset_id fuel s
      = Some (Ret (JObj (<["rules" := JArr (JObj <$> rs')]> m)), s', tr) /\
    length rs' = length rs /\
    (forall (i : nat) r, rs !! i = Some r ->
       exists r', rs' !! i = Some r' /\
         r' !! "rulesetId" = None /\ r' !! "updatedAt" = None /\ r' !! "createdAt" = None /\
         forall k, k <> "rulesetId" -> k <> "updatedAt" -> k <> "createdAt" ->
                   r' !! k = r !! k) /\
    (forall k, k <> "rules" -> <["rules" := JArr (JObj <$> rs')]> m !! k = m !! k).
Proof.
  intros Hg Hr. exists (strip rule_fields <$> rs). repeat split.
  - unfold get_ruleset_rules. rewrite Hg. cbn [then_ bind].
    by rewrite (filter_rules_listing m rs Hr).
  - by rewrite length_fmap.
  - intros i r Hi. exists (strip rule_fields r).
    rewrite list_lookup_fmap, Hi. repeat split; try by rewrite lookup_strip.
    intros k H1 H2 H3. rewrite lookup_strip.
    rewrite bool_decide_eq_false_2; [done|].
    unfold rule_fields. rewrite !elem_of_cons, elem_of_nil. tauto.
  - intros k Hk. by rewrite lookup_insert_ne.
Qed.

(** C10.  When [_get] returns a dict without the key [rules],
    [get_ruleset_rules] raises [KeyError] for that key and returns
    nothing. *)
Theorem get_ruleset_rules_requires_rules ruleset_id fuel s s' tr m :
  invoke (_get ("https://api.threatstack.com/v2/rulesets/" +:+ ruleset_id +:+ "/rules"))
    fuel s = Some (Ret (JObj m), s', tr) ->
  m !! "rules" = None ->
  get_ruleset_rules ruleset_id fuel s = Some (Raise (KeyError (JStr "rules")), s', tr).
Proof.
  intros Hg Hr. unfold get_ruleset_rules. rewrite Hg. cbn [then_ bind].
  by rewrite (filter_rules_no_rules m Hr).
Qed.


(** C7 (as amended).  [paginate] raises [NotImplementedError], which names
    no feature, whatever it is given.  The body shared by [_put], [_delete]
    and [_post] returns [None] and leaves the state as it was; under any
    policy that [retry] builds it is invoked once, nothing sleeps, and the
    call returns [None]. *)
Theorem unimplemented_surfaces :
  (forall (F : Type) (f : F), paginate f = Raise NotImplementedError) /\
  (forall s : @API Sender * W, stub s = (Ret JNull, s)) /\
  (forall exc tries decorator fuel (s : @API Sender * W),
      retry fmt_delay delay JNull exc tries = Ret decorator ->
      (0 < fuel)%nat ->
      decorator stub fuel s = Some (Ret JNull, s, [EvCall])).
Proof.
  split; [done|]. split; [done|].
  intros exc tries decorator fuel s Hr Hfuel.
  unfold retry in Hr. destruct (tries <? 0); [done|].
  injection Hr as <-. unfold _f, new_f.
  destruct (0 <? tries) eqn:Hlt.
  - apply Z.ltb_lt in Hlt. by destruct (Z.to_nat tries) as [|n] eqn:Hn; [lia|].
  - by destruct fuel as [|fuel]; [lia|].
Qed.

End ClientFacts.

(** ** The client properties in the clock world *)

(** C2.  A 429 response whose body is not JSON, whatever is read after
    [message=] on line 154: the function that line 129 decorates raises
    [TypeError], since the call passes no [error_code]; it raises no
    [RateLimitedError], so nothing carries the code 429 or the response
    text.  A 500 response whose body is not JSON makes it raise [URLError]
    with the text and the status. *)
Theorem get_throttled_raises_type_error : forall missing : option string,
  (exists msg,
      (@_get_wrapped nat string (fun h => h) clock_Sender (canned throttled) fx_decode_error
         missing "https://api.threatstack.com/v2/rulesets" (client0, 0%nat)).1
      = Raise (WithContext (TypeError msg) (fx_decode_error throttled))) /\
  (@_get_wrapped nat string (fun h => h) clock_Sender (canned server_error) fx_decode_error
     missing "https://api.threatstack.com/v2/rulesets" (client0, 0%nat)).1
    = Raise (WithContext (URLError "Did not get valid JSON in response: oops ~ 500")
               (fx_decode_error server_error)).
Proof.
  intros missing. split; [|reflexivity].
  destruct missing; eexists; reflexivity.
Qed.

(** The same 429 response through the decorated [_get]: the [TypeError] is
    not retried and leaves after the one request. *)
Lemma get_throttled_decorated :
  exists msg s,
    invoke (fx_get (canned throttled) "https://api.threatstack.com/v2/rulesets") 0%nat
      (client0, 0%nat)
    = Some (Raise (WithContext (TypeError msg) (fx_decode_error throttled)), s, [EvCall]).
Proof. eexists _, _. reflexivity. Qed.

Lemma get_ruleset_normalizes_witness :
  (exists s' tr,
      invoke (fx_get (canned (ok (JObj a_ruleset)))
                ("https://api.threatstack.com/v2/rulesets/" +:+ "rs-1")) 0%nat (client0, 0%nat)
      = Some (Ret (JObj a_ruleset), s', tr) /\
      fx_get_ruleset (canned (ok (JObj a_ruleset))) "rs-1" 0%nat (client0, 0%nat)
      = Some (Ret (JObj (delete "createdAt" (delete "updatedAt" a_ruleset))), s', tr)) /\
  delete "createdAt" (delete "updatedAt" a_ruleset) !! "updatedAt" = None /\
  delete "createdAt" (delete "updatedAt" a_ruleset) !! "name" = Some (JStr "Base").
Proof.
  assert (Hg : invoke (fx_get (canned (ok (JObj a_ruleset)))
                         ("https://api.threatstack.com/v2/rulesets/" +:+ "rs-1"))
                 0%nat (client0, 0%nat)
               = Some (Ret (JObj a_ruleset),
                       (fx_get_wrapped (canned (ok (JObj a_ruleset)))
                          ("https://api.threatstack.com/v2/rulesets/" +:+ "rs-1")
                          (client0, 0%nat)).2,
                       [EvCall])) by reflexivity.
  destruct (get_ruleset_normalizes fmt_seconds None (fun h => h) clock_Sender
              (canned (ok (JObj a_ruleset))) fx_decode_error None "rs-1" 0%nat _ _ _ _ Hg) as (Ha & Hb & _).
  split; [eexists; eexists; split; [exact Hg | exact Ha]|].
  split; [exact (Hb "updatedAt") | exact (Hb "name")].
Defined.

Lemma get_ruleset_rules_elementwise_witness :
  exists s' tr (rs' : list (gmap string json)),
    fx_get_ruleset_rules (canned (ok (JObj a_listing))) "rs-1" 0%nat (client0, 0%nat)
      = Some (Ret (JObj (<["rules" := JArr (JObj <$> rs')]> a_listing)), s', tr) /\
    length rs' = 2%nat /\
    (exists r', rs' !! 0%nat = Some r' /\
       r' !! "rulesetId" = None /\ r' !! "createdAt" = None /\
       r' !! "id" = Some (JStr "r-1")) /\
    <["rules" := JArr (JObj <$> rs')]> a_listing !! "token" = Some JNull.
Proof.
  assert (Hg : invoke (fx_get (canned (ok (JObj a_listing)))
                         ("https://api.threatstack.com/v2/rulesets/" +:+ "rs-1" +:+ "/rules"))
                 0%nat (client0, 0%nat)
               = Some (Ret (JObj a_listing),
                       (fx_get_wrapped (canned (ok (JObj a_listing)))
                          ("https://api.threatstack.com/v2/rulesets/" +:+ "rs-1" +:+ "/rules")
                          (client0, 0%nat)).2,
                       [EvCall])) by reflexivity.
  assert (Hr : a_listing !! "rules" = Some (JArr (JObj <$> [a_rule; ∅]))) by reflexivity.
  destruct (get_ruleset_rules_elementwise fmt_seconds None (fun h => h) clock_Sender
              (canned (ok (JObj a_listing))) fx_decode_error None "rs-1" 0%nat _ _ _ _ _ Hg Hr)
    as (rs' & Ha & Hl & He & Hp).
  destruct (He 0%nat a_rule eq_refl) as (r' & H0 & H1 & _ & H3 & Hk).
  eexists. eexists. exists rs'.
  split; [exact Ha|]. split; [exact Hl|]. split.
  - exists r'. split; [exact H0|]. split; [exact H1|]. split; [exact H3|].
    refine (Hk "id" _ _ _); discriminate.
  - refine (Hp "token" _). discriminate.
Defined.

Lemma get_ruleset_rules_requires_rules_witness :
  a_ruleset !! "rules" <> None /\ delete "rules" a_ruleset !! "rules" = None /\
  exists s' tr,
    fx_get_ruleset_rules (canned (ok (JObj (delete "rules" a_ruleset)))) "rs-1" 0%nat
      (client0, 0%nat)
    = Some (Raise (KeyError (JStr "rules")), s', tr).
Proof.
  split; [discriminate|].
  assert (Hr : delete "rules" a_ruleset !! "rules" = None) by reflexivity.
  split; [exact Hr|].
  assert (Hg : invoke (fx_get (canned (ok (JObj (delete "rules" a_ruleset))))
                         ("https://api.threatstack.com/v2/rulesets/" +:+ "rs-1" +:+ "/rules"))
                 0%nat (client0, 0%nat)
               = Some (Ret (JObj (delete "rules" a_ruleset)),
                       (fx_get_wrapped (canned (ok (JObj (delete "rules" a_ruleset))))
                          ("https://api.threatstack.com/v2/rulesets/" +:+ "rs-1" +:+ "/rules")
                          (client0, 0%nat)).2,
                       [EvCall])) by reflexivity.
  eexists. eexists.
  exact (get_ruleset_rules_requires_rules fmt_seconds None (fun h => h) clock_Sender
           (canned (ok (JObj (delete "rules" a_ruleset)))) fx_decode_error None "rs-1" 0%nat _ _ _ _ Hg Hr).
Defined.



Lemma unimplemented_surfaces_witness :
  paginate (fx_get (canned throttled)) = Raise NotImplementedError /\
  @stub nat string (client0, 0%nat) = (Ret JNull, (client0, 0%nat)) /\
  new_f fmt_seconds None JNull [CURLError] 3 (@stub nat string) 1%nat (client0, 0%nat)
    = Some (Ret JNull, (client0, 0%nat), [EvCall]).
Proof.
  destruct (@unimplemented_surfaces nat Z string fmt_seconds None) as (Hp & Hs & Hd).
  split; [exact (Hp _ _)|]. split; [exact (Hs _)|].
  exact (Hd [CURLError] 3 (_f fmt_seconds None JNull [CURLError] 3) 1%nat (client0, 0%nat)
           eq_refl (Nat.lt_0_succ 0)).
Defined.

(** C7, as stated: every invocation of a write operation would end in an
    unimplemented-feature failure.  The function that [_put] names returns
    [None]; the decorator expression of line 252 raises [TypeError]; no call
    of [_put] ends in [NotImplementedError]. *)
Lemma write_stub_counterexample :
  @stub nat string (client0, 0%nat) = (Ret JNull, (client0, 0%nat)) /\
  fx_put = Raise (TypeError "retry() got an unexpected keyword argument 'delay'") /\
  ~ (exists fuel s tr,
        invoke fx_put fuel (client0, 0%nat) = Some (Raise NotImplementedError, s, tr)).
Proof.
  split; [reflexivity|]. split; [reflexivity|].
  intros (fuel & s & tr & H). discriminate H.
Qed.

(** ** The loops on values that are not what the endpoints document *)

Example pop_fields_rule :
  pop_fields rule_fields (JObj a_rule)
    = Ret (JObj {[ "id" := JStr "r-1"; "severityOfAlert" := JInt 2 ]}).
Proof. reflexivity. Qed.

Example pop_fields_null :
  pop_fields ruleset_fields JNull
    = Raise (TypeError "argument of type 'NoneType' is not iterable").
Proof. reflexivity. Qed.

Example pop_fields_list :
  pop_fields ruleset_fields (JArr [JStr "createdAt"])
    = Raise (TypeError "'str' object cannot be interpreted as an integer").
Proof. reflexivity. Qed.

Example filter_rules_string :
  filter_rules (JObj {[ "rules" := JStr "none" ]}) = Ret (JObj {[ "rules" := JStr "none" ]}).
Proof. reflexivity. Qed.

Example filter_rules_dict :
  filter_rules (JObj {[ "rules" := JObj {[ "r-1" := JObj a_rule ]} ]})
    = Raise (KeyError (JInt 0)).
Proof. reflexivity. Qed.

Example filter_rules_toplevel_list :
  filter_rules (JArr [JObj a_rule])
    = Raise (TypeError "list indices must be integers or slices, not str").
Proof. reflexivity. Qed.

(** * Further properties of the retry decorator *)

Section RetryTraces.
Context {St V D : Type}.
Variable fmt_delay : D -> string.
Variable delay : option D.
Variable py_None : V.

Local Abbreviation operation := (@operation St V).
Local Abbreviation call := (@call St V D delay).
Local Abbreviation attempts := (@attempts St V D fmt_delay delay).
Local Abbreviation forever := (@forever St V D delay).
Local Abbreviation new_f := (@new_f St V D fmt_delay delay py_None).
Local Abbreviation exceeded_msg := (@exceeded_msg D fmt_delay).

Implicit Types (f : operation) (s : St) (res v : V) (tr : list (@event D)).

Lemma nth_result_S f (k : nat) s :
  (1 <= k)%nat -> nth_result f (S k) s = nth_result f k (f s).2.
Proof. intros Hk. destruct k as [|k]; [lia|]. reflexivity. Qed.

(** What one pass through [call] leaves behind, by the way it ends. *)
Lemma call_cases exc f res s :
  (exists v, (f s).1 = Ret v /\
             call exc f res s = (Ret true, v, (f s).2, [EvCall])) \/
  (exists e d, (f s).1 = Raise e /\ caught exc e = true /\ delay = Some d /\
               call exc f res s
                 = (Ret false, res, (f s).2, [EvCall; EvLog e; EvPrint e; EvSleep d])) \/
  (exists e, (f s).1 = Raise e /\ caught exc e = true /\ delay = None /\
             call exc f res s
               = (Raise (WithContext (NameError "delay") e), res, (f s).2,
                  [EvCall; EvLog e; EvPrint e])) \/
  (exists e, (f s).1 = Raise e /\ caught exc e = false /\
             call exc f res s = (Raise e, res, (f s).2, [EvCall])).
Proof.
  unfold call. destruct (f s) as [[v|e] s0]; simpl.
  - left. by exists v.
  - destruct (caught exc e) eqn:Hc.
    + destruct delay as [d|] eqn:Hd.
      * right; left. by exists e, d.
      * right; right; left. by exists e.
    + right; right; right. by exists e.
Qed.

(** The bounded loop, whichever way it ends: the state went through
    exactly the invocations made, and the trace tells how it ended. *)
Lemma attempts_trace exc tries f : forall (n : nat) res s o s' tr,
  attempts exc tries f n res s = (o, s', tr) ->
  s' = state_after f (invocations tr) s /\
  match o with
  | Ret v =>
      (1 <= invocations tr <= n)%nat /\ sleeps tr = (invocations tr - 1)%nat /\
      fails_n exc f (invocations tr - 1) s /\ nth_result f (invocations tr) s = Ret v
  | Raise e =>
      (invocations tr = n /\ sleeps tr = n /\ fails_n exc f n s /\
       e = match delay with
           | Some d => RetryLimitExceeded (exceeded_msg tries d)
           | None => NameError "delay"
           end) \/
      ((1 <= invocations tr <= n)%nat /\ sleeps tr = (invocations tr - 1)%nat /\
       fails_n exc f (invocations tr - 1) s /\
       exists e', nth_result f (invocations tr) s = Raise e' /\
                  if caught exc e' then delay = None /\ e = WithContext (NameError "delay") e'
                  else e = e')
  end.
Proof.
  induction n as [|n IH]; intros res s o s' tr H; simpl in H.
  - assert (o = Raise (match delay with
                       | Some d => RetryLimitExceeded (exceeded_msg tries d)
                       | None => NameError "delay"
                       end) /\ s' = s /\ tr = []) as (-> & -> & ->)
      by (destruct delay; by injection H as <- <- <-).
    split; [done|]. left. by refine (conj _ (conj _ (conj _ _))).
  - destruct (call_cases exc f res s)
      as [(v & Hv & Hc)|[(e & d & He & Hcaught & Hd & Hc)|
          [(e & He & Hcaught & Hd & Hc)|(e & He & Hcaught & Hc)]]];
      rewrite Hc in H.
    + injection H as <- <- <-. split; [done|].
      change (invocations [@EvCall D]) with 1%nat. change (sleeps [@EvCall D]) with 0%nat.
      refine (conj _ (conj _ (conj _ Hv))); [lia | done | done].
    + destruct (attempts exc tries f n res (f s).2) as [[o1 s1] tr1] eqn:Ha.
      injection H as <- <- <-. apply IH in Ha as (Hs & Ho).
      change (EvCall :: EvLog e :: EvPrint e :: EvSleep d :: tr1)
        with ([EvCall; EvLog e; EvPrint e; EvSleep d] ++ tr1).
      rewrite invocations_app, sleeps_app.
      change (invocations [EvCall; EvLog e; EvPrint e; EvSleep d]) with 1%nat.
      change (sleeps [EvCall; EvLog e; EvPrint e; EvSleep d]) with 1%nat.
      split; [exact Hs|].
      assert (Hstep : forall k, (1 <= k)%nat ->
                fails_n exc f (k - 1) (f s).2 -> fails_n exc f (1 + k - 1) s).
      { intros k Hk Hf. replace (1 + k - 1)%nat with (S (k - 1)) by lia.
        simpl. exists e. auto. }
      assert (Hnth : (1 <= invocations tr1)%nat ->
                nth_result f (1 + invocations tr1) s
                  = nth_result f (invocations tr1) (f s).2).
      { intros Hk. change (1 + invocations tr1)%nat with (S (invocations tr1)).
        by apply nth_result_S. }
      destruct o1 as [v|e1].
      * destruct Ho as (Hi & Hsl & Hf & Hn).
        refine (conj _ (conj _ (conj _ _))); [lia | lia | apply Hstep; [lia|done] |].
        by rewrite Hnth by lia.
      * destruct Ho as [(Hi & Hsl & Hf & He1)|(Hi & Hsl & Hf & e' & Hn & Hif)].
        -- left. refine (conj _ (conj _ (conj _ He1))); [lia | lia |].
           simpl. exists e. auto.
        -- right.
           refine (conj _ (conj _ (conj _ _))); [lia | lia | apply Hstep; [lia|done] |].
           exists e'. split; [|exact Hif]. by rewrite Hnth by lia.
    + injection H as <- <- <-. split; [done|]. right.
      change (invocations [EvCall; EvLog e; EvPrint e]) with 1%nat.
      change (sleeps [EvCall; EvLog e; EvPrint e]) with 0%nat.
      refine (conj _ (conj _ (conj _ _))); [lia | done | done |].
      exists e. split; [exact He|]. by rewrite Hcaught.
    + injection H as <- <- <-. split; [done|]. right.
      change (invocations [@EvCall D]) with 1%nat. change (sleeps [@EvCall D]) with 0%nat.
      refine (conj _ (conj _ (conj _ _))); [lia | done | done |].
      exists e. split; [exact He|]. by rewrite Hcaught.
Qed.

(** The unbounded loop, when it ends. *)
Lemma forever_trace exc f : forall (fuel : nat) res s o s' tr,
  forever exc f fuel res s = Some (o, s', tr) ->
  s' = state_after f (invocations tr) s /\
  (1 <= invocations tr <= fuel)%nat /\ sleeps tr = (invocations tr - 1)%nat /\
  fails_n exc f (invocations tr - 1) s /\
  match o with
  | Ret v => nth_result f (invocations tr) s = Ret v
  | Raise e =>
      exists e', nth_result f (invocations tr) s = Raise e' /\
                 if caught exc e' then delay = None /\ e = WithContext (NameError "delay") e'
                  else e = e'
  end.
Proof.
  induction fuel as [|fuel IH]; intros res s o s' tr H; simpl in H; [done|].
  destruct (call_cases exc f res s)
    as [(v & Hv & Hc)|[(e & d & He & Hcaught & Hd & Hc)|
        [(e & He & Hcaught & Hd & Hc)|(e & He & Hcaught & Hc)]]];
    rewrite Hc in H.
  - injection H as <- <- <-.
    change (invocations [@EvCall D]) with 1%nat. change (sleeps [@EvCall D]) with 0%nat.
    refine (conj _ (conj _ (conj _ (conj _ Hv)))); [done | lia | done | done].
  - destruct (forever exc f fuel res (f s).2) as [[[o1 s1] tr1]|] eqn:Ha; [|done].
    injection H as <- <- <-. apply IH in Ha as (Hs & Hi & Hsl & Hf & Ho).
    change (EvCall :: EvLog e :: EvPrint e :: EvSleep d :: tr1)
      with ([EvCall; EvLog e; EvPrint e; EvSleep d] ++ tr1).
    rewrite invocations_app, sleeps_app.
    change (invocations [EvCall; EvLog e; EvPrint e; EvSleep d]) with 1%nat.
    change (sleeps [EvCall; EvLog e; EvPrint e; EvSleep d]) with 1%nat.
    assert (Hnth : nth_result f (1 + invocations tr1) s
                   = nth_result f (invocations tr1) (f s).2).
    { change (1 + invocations tr1)%nat with (S (invocations tr1)).
      apply nth_result_S. lia. }
    refine (conj Hs (conj _ (conj _ (conj _ _)))); [lia | lia | |].
    + replace (1 + invocations tr1 - 1)%nat with (S (invocations tr1 - 1)) by lia.
      simpl. exists e. auto.
    + rewrite Hnth. exact Ho.
  - injection H as <- <- <-.
    change (invocations [EvCall; EvLog e; EvPrint e]) with 1%nat.
    change (sleeps [EvCall; EvLog e; EvPrint e]) with 0%nat.
    refine (conj _ (conj _ (conj _ (conj _ _)))); [done | lia | done | done |].
    exists e. split; [exact He|]. by rewrite Hcaught.
  - injection H as <- <- <-.
    change (invocations [@EvCall D]) with 1%nat. change (sleeps [@EvCall D]) with 0%nat.
    refine (conj _ (conj _ (conj _ (conj _ _)))); [done | lia | done | done |].
    exists e. split; [exact He|]. by rewrite Hcaught.
Qed.

(** X1.  A bounded policy ([tries > 0]) invokes the operation at least once
    and at most [tries] times, never sleeps more often than it invokes, and
    hands back the state exactly as those invocations left it. *)
Theorem retry_invocations_bounded exc tries f fuel s o s' tr :
  0 < tries ->
  new_f exc tries f fuel s = Some (o, s', tr) ->
  (1 <= invocations tr <= Z.to_nat tries)%nat /\
  (sleeps tr <= invocations tr)%nat /\
  s' = state_after f (invocations tr) s.
Proof.
  intros Ht H. rewrite new_f_bounded in H by done. injection H as H.
  apply attempts_trace in H as (Hs & Ho).
  destruct o as [v|e].
  - destruct Ho as (Hi & Hsl & _). split; [lia|]. split; [lia|done].
  - destruct Ho as [(Hi & Hsl & _)|(Hi & Hsl & _)]; (split; [lia|]); (split; [lia|done]).
Qed.

(** X2.  Whatever [tries] is, a value returned by the wrapper is the value
    the last invocation returned; every earlier invocation raised an
    exception of the retryable classes, and each of those was followed by
    one sleep. *)
Theorem retry_returns_last_result exc tries f fuel s v s' tr :
  new_f exc tries f fuel s = Some (Ret v, s', tr) ->
  nth_result f (invocations tr) s = Ret v /\
  fails_n exc f (invocations tr - 1) s /\
  sleeps tr = (invocations tr - 1)%nat /\
  s' = state_after f (invocations tr) s.
Proof.
  intros H. unfold new_f in H. destruct (0 <? tries).
  - injection H as H. by apply attempts_trace in H as (Hs & Hi & Hsl & Hf & Hn).
  - by apply forever_trace in H as (Hs & Hi & Hsl & Hf & Hn).
Qed.

(** X3.  With [delay] bound and [tries > 0], an exception leaves the wrapper
    in one of two ways only.  Either all [tries] invocations raised
    retryable exceptions, the wrapper slept after each of them (after the
    last one too) and raised [RetryLimitExceeded]; or the last invocation
    raised an exception outside the retryable classes, and that very
    exception came out. *)
Theorem retry_raise_classification exc tries f fuel s e s' tr d :
  0 < tries ->
  delay = Some d ->
  new_f exc tries f fuel s = Some (Raise e, s', tr) ->
  (e = RetryLimitExceeded (exceeded_msg tries d) /\
   invocations tr = Z.to_nat tries /\ sleeps tr = Z.to_nat tries /\
   fails_n exc f (Z.to_nat tries) s) \/
  (caught exc e = false /\ nth_result f (invocations tr) s = Raise e /\
   fails_n exc f (invocations tr - 1) s).
Proof.
  intros Ht Hd H. rewrite new_f_bounded in H by done. injection H as H.
  apply attempts_trace in H as (Hs & [(Hi & Hsl & Hf & He)|(Hi & Hsl & Hf & e' & Hn & Hif)]).
  - left. rewrite Hd in He. done.
  - right. destruct (caught exc e') eqn:Hc.
    + destruct Hif as [Hnone _]. congruence.
    + subst e'. done.
Qed.

(** X4.  With [delay] bound, the unbounded policy ([tries = 0]) raises
    nothing of its own: an exception that leaves it was raised by the last
    invocation and is outside the retryable classes. *)
Theorem retry_unbounded_raise exc f fuel s e s' tr d :
  delay = Some d ->
  new_f exc 0 f fuel s = Some (Raise e, s', tr) ->
  caught exc e = false /\ nth_result f (invocations tr) s = Raise e /\
  fails_n exc f (invocations tr - 1) s.
Proof.
  intros Hd H. rewrite new_f_unbounded in H.
  apply forever_trace in H as (Hs & Hi & Hsl & Hf & e' & Hn & Hif).
  destruct (caught exc e') eqn:Hc.
  - destruct Hif as [Hnone _]. congruence.
  - subst e'. done.
Qed.

(** X5.  With [delay] bound, the unbounded policy does not end on an
    operation that raises a retryable exception at every invocation:
    however long the loop is followed, it has not returned or raised. *)
Theorem retry_unbounded_diverges exc f s d :
  delay = Some d ->
  (forall n, fails_n exc f n s) ->
  forall fuel, new_f exc 0 f fuel s = None.
Proof.
  intros Hd Hall fuel. rewrite new_f_unbounded. generalize py_None as res.
  revert s Hall. induction fuel as [|fuel IH]; intros s Hall res; [done|].
  destruct (Hall 1%nat) as (e & He & Hc & _).
  simpl. rewrite (call_retries delay exc f res s e d He Hc Hd).
  rewrite IH; [done|].
  intros n. destruct (Hall (S n)) as (e' & _ & _ & Hn). exact Hn.
Qed.


(** X6.  With [delay] unbound, as the module leaves it, no wrapped call
    gets to a second invocation: the operation is invoked once, nothing
    sleeps, and the outcome is the operation's own, except that an exception
    the handler catches (an instance of one of the classes of [exc], a
    subclass included) comes out as the [NameError] of line 69, with the
    caught exception as its context. *)
Theorem retry_unbound_delay_single_invocation exc tries f fuel s :
  delay = None ->
  0 <= tries ->
  (0 < fuel)%nat ->
  exists tr,
    new_f exc tries f fuel s
      = Some (match (f s).1 with
              | Ret v => Ret v
              | Raise e =>
                  if caught exc e then Raise (WithContext (NameError "delay") e) else Raise e
              end, (f s).2, tr) /\
    invocations tr = 1%nat /\ sleeps tr = 0%nat.
Proof.
  intros Hd Ht Hfuel.
  assert (Hcall : exists tr,
             (attempts exc tries f (S (Z.to_nat tries - 1)) py_None s
                = (match (f s).1 with
                   | Ret v => Ret v
                   | Raise e =>
                  if caught exc e then Raise (WithContext (NameError "delay") e) else Raise e
                   end, (f s).2, tr) /\
              forever exc f (S (fuel - 1)) py_None s
                = Some (match (f s).1 with
                        | Ret v => Ret v
                        | Raise e =>
                  if caught exc e then Raise (WithContext (NameError "delay") e) else Raise e
                        end, (f s).2, tr)) /\
             invocations tr = 1%nat /\ sleeps tr = 0%nat).
  { simpl.
    destruct (call_cases exc f py_None s)
      as [(v & Hv & Hc)|[(e & d & He & Hcaught & Hd' & Hc)|
          [(e & He & Hcaught & _ & Hc)|(e & He & Hcaught & Hc)]]];
      [| congruence | |]; rewrite Hc; [rewrite Hv | rewrite He, Hcaught ..];
      eexists; (split; [split; reflexivity|]); split; reflexivity. }
  destruct Hcall as (tr & [Ha Hf] & Hi & Hs). exists tr. split; [|done].
  unfold new_f. destruct (0 <? tries) eqn:Hlt.
  - apply Z.ltb_lt in Hlt. rewrite <- Ha. do 2 f_equal. lia.
  - rewrite <- Hf. f_equal. lia.
Qed.

End RetryTraces.

(** ** The further retry properties at concrete operations *)

Lemma retry_invocations_bounded_witness :
  exists o s' tr,
    new_f fmt_seconds (Some 30) None get_exc 3 (flaky 2 7) 0%nat 0%nat = Some (o, s', tr) /\
    (1 <= invocations tr <= Z.to_nat 3)%nat /\
    (sleeps tr <= invocations tr)%nat /\
    s' = state_after (flaky 2 7) (invocations tr) 0%nat.
Proof.
  eexists _, _, _. split; [reflexivity|].
  exact (retry_invocations_bounded fmt_seconds (Some 30) None get_exc 3 (flaky 2 7)
           0%nat 0%nat _ _ _ eq_refl eq_refl).
Defined.

Lemma retry_returns_last_result_witness :
  exists s' tr,
    new_f fmt_seconds (Some 30) None get_exc 0 (flaky 2 7) 5%nat 0%nat
      = Some (Ret (Some 7), s', tr) /\
    nth_result (flaky 2 7) (invocations tr) 0%nat = Ret (Some 7) /\
    invocations tr = 3%nat /\ sleeps tr = 2%nat.
Proof.
  eexists _, _. split; [reflexivity|].
  destruct (retry_returns_last_result fmt_seconds (Some 30) None get_exc 0 (flaky 2 7)
              5%nat 0%nat (Some 7) _ _ eq_refl) as (Hn & _ & Hs & _).
  split; [exact Hn|]. split; [reflexivity | exact Hs].
Defined.

Lemma retry_raise_classification_witness :
  exists s' tr,
    new_f fmt_seconds (Some 30) None get_exc 2 (flaky 5 7) 0%nat 0%nat
      = Some (Raise (RetryLimitExceeded (exceeded_msg fmt_seconds 2 30)), s', tr) /\
    (RetryLimitExceeded (exceeded_msg fmt_seconds 2 30)
       = RetryLimitExceeded (exceeded_msg fmt_seconds 2 30) /\
     invocations tr = Z.to_nat 2 /\ sleeps tr = Z.to_nat 2 /\
     fails_n get_exc (flaky 5 7) (Z.to_nat 2) 0%nat \/
     caught get_exc (RetryLimitExceeded (exceeded_msg fmt_seconds 2 30)) = false /\
     nth_result (flaky 5 7) (invocations tr) 0%nat
       = Raise (RetryLimitExceeded (exceeded_msg fmt_seconds 2 30)) /\
     fails_n get_exc (flaky 5 7) (invocations tr - 1) 0%nat).
Proof.
  eexists _, _. split; [reflexivity|].
  exact (retry_raise_classification fmt_seconds (Some 30) None get_exc 2 (flaky 5 7)
           0%nat 0%nat _ _ _ 30 eq_refl eq_refl eq_refl).
Defined.

Lemma retry_unbounded_raise_witness :
  exists s' tr,
    new_f fmt_seconds (Some 30) None get_exc 0 (always_raises (KeyError (JStr "id")))
      1%nat 0%nat = Some (Raise (KeyError (JStr "id")), s', tr) /\
    caught get_exc (KeyError (JStr "id")) = false /\
    nth_result (always_raises (KeyError (JStr "id"))) (invocations tr) 0%nat
      = Raise (KeyError (JStr "id")).
Proof.
  eexists _, _. split; [reflexivity|].
  destruct (retry_unbounded_raise fmt_seconds (Some 30) None get_exc
              (always_raises (KeyError (JStr "id"))) 1%nat 0%nat _ _ _ 30 eq_refl eq_refl)
    as (Hc & Hn & _).
  split; [exact Hc | exact Hn].
Defined.

Lemma retry_unbounded_diverges_witness :
  (forall n, fails_n get_exc (always_raises (URLError "timed out")) n 0%nat) /\
  forall fuel,
    new_f fmt_seconds (Some 30) None get_exc 0 (always_raises (URLError "timed out"))
      fuel 0%nat = None.
Proof.
  assert (Hall : forall n s, fails_n get_exc (always_raises (URLError "timed out")) n s).
  { induction n as [|n IH]; intros s; simpl; [exact I|].
    exists (URLError "timed out"). split; [reflexivity|]. split; [reflexivity|]. apply IH. }
  split; [exact (fun n => Hall n 0%nat)|].
  exact (retry_unbounded_diverges fmt_seconds (Some 30) None get_exc
           (always_raises (URLError "timed out")) 0%nat 30 eq_refl (fun n => Hall n 0%nat)).
Defined.

Lemma retry_unbound_delay_single_invocation_witness :
  exists tr,
    new_f fmt_seconds None None get_exc 3 (flaky 1 7) 1%nat 0%nat
      = Some (Raise (WithContext (NameError "delay") (URLError "connection reset")),
              1%nat, tr) /\
    invocations tr = 1%nat /\ sleeps tr = 0%nat.
Proof.
  refine (retry_unbound_delay_single_invocation fmt_seconds None None get_exc 3 (flaky 1 7)
            1%nat 0%nat eq_refl _ _); lia.
Defined.

(** * Further properties of the field-stripping loops *)

(** X7.  On a dict the loop of lines 186-188 (and its three copies) never
    raises, whatever the list of fields: it returns the dict without exactly
    the listed keys, every other key keeping its value, and the order in
    which the fields are listed makes no difference. *)
Theorem pop_fields_dict_exact fields (m : gmap string json) :
  exists m' : gmap string json,
    pop_fields fields (JObj m) = Ret (JObj m') /\
    (forall k, m' !! k = if bool_decide (k ∈ fields) then None else m !! k) /\
    pop_fields (reverse fields) (JObj m) = Ret (JObj m').
Proof.
  exists (strip fields m). split; [apply pop_fields_dict|].
  split; [apply lookup_strip|].
  rewrite pop_fields_dict. do 2 f_equal. apply map_eq. intros k.
  rewrite !lookup_strip.
  rewrite (bool_decide_ext (k ∈ reverse fields) (k ∈ fields)); [done|].
  apply elem_of_reverse.
Qed.

(** X10.  On a response that is [null], a boolean or a number, the loop
    raises [TypeError] at its first membership test, and line 206 raises
    [TypeError] at [data['rules']]: nothing is returned. *)
Theorem normalizers_reject_scalars data field fields :
  is_scalar data = true ->
  pop_fields (field :: fields) data
    = Raise (TypeError ("argument of type '" +:+ type_name data +:+ "' is not iterable")) /\
  filter_rules data
    = Raise (TypeError ("'" +:+ type_name data +:+ "' object is not subscriptable")).
Proof. by destruct data. Qed.

Lemma strip_clean fields (r : gmap string json) :
  (forall k, k ∈ fields -> r !! k = None) -> strip fields r = r.
Proof.
  intros Hclean. apply map_eq. intros k. rewrite lookup_strip.
  case_bool_decide as Hk; [|done]. symmetry. by apply Hclean.
Qed.

Lemma strip_fmap_idemp fields (rs : list (gmap string json)) :
  strip fields <$> (strip fields <$> rs) = strip fields <$> rs.
Proof.
  rewrite <- list_fmap_compose. apply list_fmap_ext. intros i r _. apply strip_idemp.
Qed.

(** X11.  Filtering a listing is idempotent: when the [rules] entry is a
    list of dicts, [filter_rules] returns a value on which [filter_rules]
    returns that same value. *)
Theorem filter_rules_idempotent (m : gmap string json) (rs : list (gmap string json)) :
  m !! "rules" = Some (JArr (JObj <$> rs)) ->
  exists data',
    filter_rules (JObj m) = Ret data' /\ filter_rules data' = Ret data'.
Proof.
  intros Hr. eexists. split; [by apply filter_rules_listing|].
  rewrite (filter_rules_listing _ (strip rule_fields <$> rs)) by apply lookup_insert_eq.
  by rewrite insert_insert_eq, strip_fmap_idemp.
Qed.

(** X12.  A listing none of whose rules has [rulesetId], [updatedAt] or
    [createdAt] comes back exactly as it was; so does a listing with no
    rules at all. *)
Theorem filter_rules_noop (m : gmap string json) (rs : list (gmap string json)) :
  m !! "rules" = Some (JArr (JObj <$> rs)) ->
  Forall (fun r : gmap string json =>
            r !! "rulesetId" = None /\ r !! "updatedAt" = None /\ r !! "createdAt" = None)
         rs ->
  filter_rules (JObj m) = Ret (JObj m).
Proof.
  intros Hr Hclean. rewrite (filter_rules_listing m rs Hr).
  assert (Hrs : strip rule_fields <$> rs = rs).
  { rewrite <- (list_fmap_id rs) at 2. apply Forall_fmap_ext_1.
    eapply Forall_impl; [exact Hclean|]. intros r (H1 & H2 & H3).
    apply strip_clean. intros k. unfold rule_fields.
    rewrite !elem_of_cons, elem_of_nil. intros [->|[->|[->|[]]]]; done. }
  rewrite Hrs. do 2 f_equal. by apply insert_id.
Qed.

Lemma for_each_stops {A : Type} (body : A -> outcome A) (l1 : list A) x (l2 l1' : list A) e :
  for_each body l1 = Ret l1' ->
  body x = Raise e ->
  for_each body (l1 ++ x :: l2) = Raise e.
Proof.
  revert l1'. induction l1 as [|y l1 IH]; intros l1' H1 Hx; simpl.
  - by rewrite Hx.
  - simpl in H1. destruct (body y) as [y'|ey]; [|done]. simpl in *.
    destruct (for_each body l1) as [r|er]; [|done].
    by rewrite (IH r eq_refl Hx).
Qed.

(** X13.  One entry of the [rules] list on which the field loop raises
    (a [null] entry, say) makes the whole pass raise that exception, also
    when the entries before it are dicts: no partly filtered listing is
    returned. *)
Theorem filter_rules_bad_entry (m : gmap string json) (rs : list (gmap string json))
    x (rest : list json) e :
  m !! "rules" = Some (JArr ((JObj <$> rs) ++ x :: rest)) ->
  pop_fields rule_fields x = Raise e ->
  filter_rules (JObj m) = Raise e.
Proof.
  intros Hr Hx. unfold filter_rules, getitem. rewrite Hr. cbn [bind filter_each].
  by rewrite (for_each_stops _ _ _ _ _ _ (for_each_dicts rule_fields rs) Hx).
Qed.

(** * Further properties of the client *)

Section ClientReads.
Context {W D Sender : Type}.
Variable fmt_delay : D -> string.
Variable delay : option D.
Variable request_header : Sender -> string.
Variable mohawk_Sender :
  credentials -> string -> string -> bool -> string -> string -> W -> outcome Sender * W.
Variable requests_get :
  string -> list (string * option string) -> W -> outcome response * W.
Variable decode_error : response -> exn.
Variable line_154_message : option string.

Local Abbreviation _update_sender := (@_update_sender W Sender request_header mohawk_Sender).
Local Abbreviation _get_wrapped :=
  (@_get_wrapped W Sender request_header mohawk_Sender requests_get decode_error
     line_154_message).
Local Abbreviation _get :=
  (@_get W D Sender fmt_delay delay request_header mohawk_Sender requests_get
     decode_error line_154_message).
Local Abbreviation get_rule :=
  (@get_rule W D Sender fmt_delay delay request_header mohawk_Sender requests_get
     decode_error line_154_message).
Local Abbreviation get_rule_tags :=
  (@get_rule_tags W D Sender fmt_delay delay request_header mohawk_Sender requests_get
     decode_error line_154_message).

Implicit Types (self : @API Sender) (w : W) (m : gmap string json).

(** The client once [sender] has been stored by [_update_sender]. *)
Local Abbreviation signed self sender :=
  {| _user := _user self; _key := _key self; _ext := _ext self;
     _credentials := _credentials self;
     _sender := Some sender; _header := Some (request_header sender) |}.

(** The decorated [_get] is the bounded loop of three attempts. *)
Lemma _get_attempts url fuel s :
  invoke (_get url) fuel s
    = Some (attempts fmt_delay delay get_exc 3 (_get_wrapped url) 3 JNull s).
Proof. reflexivity. Qed.

(** X8.  When [_get] returns a dict [m], [get_rule] returns [m] without the
    keys [rulesetId], [updatedAt] and [createdAt], every other key keeping
    its value; the loop of lines 229-231 leaves that result unchanged. *)
Theorem get_rule_normalizes ruleset_id rule_id fuel s s' tr m :
  invoke (_get ("https://api.threatstack.com/v2/rulesets/" +:+ ruleset_id +:+
                "/rules/" +:+ rule_id)) fuel s
    = Some (Ret (JObj m), s', tr) ->
  exists m' : gmap string json,
    get_rule ruleset_id rule_id fuel s = Some (Ret (JObj m'), s', tr) /\
    (forall k,
        m' !! k =
          if bool_decide (k = "rulesetId" \/ k = "updatedAt" \/ k = "createdAt")
          then None else m !! k) /\
    pop_fields rule_fields (JObj m') = Ret (JObj m').
Proof.
  intros Hg. exists (strip rule_fields m). split; [|split].
  - unfold get_rule. rewrite Hg. cbn [then_ bind]. by rewrite pop_fields_dict.
  - intros k. rewrite lookup_strip.
    rewrite (bool_decide_ext (k ∈ rule_fields)
               (k = "rulesetId" \/ k = "updatedAt" \/ k = "createdAt")); [done|].
    unfold rule_fields. rewrite !elem_of_cons, elem_of_nil. tauto.
  - by rewrite pop_fields_dict, strip_idemp.
Qed.

(** X9.  When [_get] returns a dict [m], [get_rule_tags] returns [m]
    without the key [errors] and with every other key unchanged; a dict
    without that key comes back as it was. *)
Theorem get_rule_tags_normalizes rule_id fuel s s' tr m :
  invoke (_get ("https://api.threatstack.com/v2/rules/" +:+ rule_id +:+ "/tags")) fuel s
    = Some (Ret (JObj m), s', tr) ->
  get_rule_tags rule_id fuel s = Some (Ret (JObj (delete "errors" m)), s', tr) /\
  (forall k, delete "errors" m !! k = if bool_decide (k = "errors") then None else m !! k) /\
  (m !! "errors" = None -> get_rule_tags rule_id fuel s = Some (Ret (JObj m), s', tr)).
Proof.
  intros Hg.
  assert (Hr : get_rule_tags rule_id fuel s = Some (Ret (JObj (delete "errors" m)), s', tr)).
  { unfold get_rule_tags. rewrite Hg. cbn [then_ bind]. by rewrite pop_fields_dict. }
  split; [exact Hr|]. split.
  - intros k. case_bool_decide as Hk.
    + subst k. apply lookup_delete_eq.
    + by apply lookup_delete_ne.
  - intros Hnone. rewrite Hr. by rewrite delete_id.
Qed.

(** X14.  When signing succeeds and the response body parses as JSON, [_get]
    returns the parsed value after one invocation and without sleeping,
    whatever the HTTP status is (a 429 or a 500 with a JSON body is returned
    like a 200) and whether or not [delay] is bound; the client then holds
    the signer and header of that request. *)
Theorem get_json_ignores_status url self w sender w1 r w2 data fuel :
  mohawk_Sender (_credentials self) url "GET" false "application/json" (_ext self) w
    = (Ret sender, w1) ->
  requests_get url
    [("Authorization", Some (request_header sender)); ("Content-Type", Some "application/json")]
    w1 = (Ret r, w2) ->
  json_ r = Some data ->
  invoke (_get url) fuel (self, w) = Some (Ret data, (signed self sender, w2), [EvCall]).
Proof.
  intros Hs Hg Hj. rewrite _get_attempts. cbn [attempts].
  assert (Hw : _get_wrapped url (self, w) = (Ret data, (signed self sender, w2))).
  { unfold _get_wrapped, _update_sender. rewrite Hs. cbn. by rewrite Hg, Hj. }
  unfold call. by rewrite Hw.
Qed.

(** X16.  What a request returns or raises, and the world it leaves, do not
    depend on the signer or header an earlier call stored in the client: two
    clients with the same credentials and extension get the same result. *)
Theorem get_wrapped_ignores_stored_signer url self self' w :
  _credentials self = _credentials self' ->
  _ext self = _ext self' ->
  (_get_wrapped url (self, w)).1 = (_get_wrapped url (self', w)).1 /\
  (_get_wrapped url (self, w)).2.2 = (_get_wrapped url (self', w)).2.2.
Proof.
  intros Hc He. unfold _get_wrapped, _update_sender. rewrite Hc, He.
  destruct (mohawk_Sender _ _ _ _ _ _ _) as [[sender|e] w1]; [|done]. cbn.
  destruct (requests_get _ _ _) as [[r|e] w2]; [|done].
  destruct (json_ r); [done|]. by destruct (status_code r =? 429).
Qed.

(** X17.  An exception that [requests.get] raises and that is neither a
    [URLError] nor a [RateLimitedError] (a connection error of [requests],
    say) is not retried: it leaves [_get] after one invocation, without a
    sleep, and the client keeps the signer and header of that request. *)
Theorem get_other_exception_not_retried url self w sender w1 e w2 fuel :
  mohawk_Sender (_credentials self) url "GET" false "application/json" (_ext self) w
    = (Ret sender, w1) ->
  requests_get url
    [("Authorization", Some (request_header sender)); ("Content-Type", Some "application/json")]
    w1 = (Raise e, w2) ->
  caught get_exc e = false ->
  invoke (_get url) fuel (self, w) = Some (Raise e, (signed self sender, w2), [EvCall]).
Proof.
  intros Hs Hg Hc. rewrite _get_attempts. cbn [attempts].
  assert (Hw : _get_wrapped url (self, w) = (Raise e, (signed self sender, w2))).
  { unfold _get_wrapped, _update_sender. rewrite Hs. cbn. by rewrite Hg. }
  unfold call. by rewrite Hw, Hc.
Qed.

(** X15.  With [delay] bound, a signing library that never raises and a
    network that answers every request with a body that is not JSON and a
    status other than 429: [_get] signs and sends three times, sleeps after
    each of the three responses, and raises [RetryLimitExceeded]. *)
Theorem get_exhausts_after_three url d :
  delay = Some d ->
  (forall c u mth b ct ext w, exists sender w',
      mohawk_Sender c u mth b ct ext w = (Ret sender, w')) ->
  (forall headers w, exists r w',
      requests_get url headers w = (Ret r, w') /\ json_ r = None /\ status_code r <> 429) ->
  forall fuel self w, exists s' tr,
    invoke (_get url) fuel (self, w)
      = Some (Raise (RetryLimitExceeded (exceeded_msg fmt_delay 3 d)), s', tr) /\
    invocations tr = 3%nat /\ sleeps tr = 3%nat.
Proof.
  intros Hd Hsign Hnet fuel self w. rewrite _get_attempts.
  assert (Hall : forall n s, fails_n get_exc (_get_wrapped url) n s).
  { induction n as [|n IH]; intros [self0 w0]; simpl; [exact I|].
    destruct (Hsign (_credentials self0) url "GET" false "application/json" (_ext self0) w0)
      as (sender & w1 & Hs).
    destruct (Hnet [("Authorization", Some (request_header sender));
                    ("Content-Type", Some "application/json")] w1)
      as (r & w2 & Hg & Hj & Hst).
    pose proof (_get_wrapped_no_json request_header mohawk_Sender requests_get
                  decode_error line_154_message url self0 w0 sender w1 r w2 Hs Hg Hj) as Hw.
    rewrite (proj2 (Z.eqb_neq _ _) Hst) in Hw.
    eexists. split; [exact Hw|]. split; [reflexivity|]. apply IH. }
  destruct (attempts_exhausted fmt_delay delay get_exc 3 (_get_wrapped url) d 3 JNull
              (self, w) Hd (Hall 3%nat (self, w))) as (tr & Ha & Hi & Hsl).
  eexists _, tr. by rewrite Ha.
Qed.

(** The other half of the same loop: a 429 response whose body is not JSON
    is not retried, whether or not [delay] is bound.  The [TypeError] of
    line 154 leaves [_get] after the one request. *)
Lemma get_throttled_not_retried url self w sender w1 r w2 fuel :
  mohawk_Sender (_credentials self) url "GET" false "application/json" (_ext self) w
    = (Ret sender, w1) ->
  requests_get url
    [("Authorization", Some (request_header sender)); ("Content-Type", Some "application/json")]
    w1 = (Ret r, w2) ->
  json_ r = None ->
  status_code r = 429 ->
  exists msg,
    invoke (_get url) fuel (self, w)
      = Some (Raise (WithContext (TypeError msg) (decode_error r)),
              (signed self sender, w2), [EvCall]).
Proof.
  intros Hs Hg Hj Hst. rewrite _get_attempts. cbn [attempts].
  destruct (line_154_type_error line_154_message (decode_error r)) as (msg & Hm & Hc).
  exists msg.
  assert (Hw : _get_wrapped url (self, w)
               = (Raise (WithContext (TypeError msg) (decode_error r)),
                  (signed self sender, w2))).
  { unfold _get_wrapped, _update_sender. rewrite Hs. cbn.
    rewrite Hg, Hj, Hst. cbn [Z.eqb Pos.eqb]. by rewrite Hm. }
  unfold call. by rewrite Hw, Hc.
Qed.

End ClientReads.

(** ** The further properties at concrete values *)

Lemma normalizers_reject_scalars_witness :
  pop_fields ruleset_fields JNull
    = Raise (TypeError "argument of type 'NoneType' is not iterable") /\
  filter_rules (JInt 7) = Raise (TypeError "'int' object is not subscriptable").
Proof.
  split.
  - exact (proj1 (normalizers_reject_scalars JNull "updatedAt" ["createdAt"] eq_refl)).
  - exact (proj2 (normalizers_reject_scalars (JInt 7) "updatedAt" [] eq_refl)).
Defined.

Lemma filter_rules_idempotent_witness :
  a_listing !! "rules" = Some (JArr (JObj <$> [a_rule; ∅])) /\
  exists data', filter_rules (JObj a_listing) = Ret data' /\ filter_rules data' = Ret data'.
Proof.
  split; [reflexivity|].
  exact (filter_rules_idempotent a_listing [a_rule; ∅] eq_refl).
Defined.

Lemma filter_rules_noop_witness :
  filter_rules (JObj clean_listing) = Ret (JObj clean_listing) /\
  filter_rules (JObj {[ "rules" := JArr [] ]}) = Ret (JObj {[ "rules" := JArr [] ]}).
Proof.
  split.
  - refine (filter_rules_noop clean_listing [{[ "id" := JStr "r-1" ]}; ∅] eq_refl _).
    repeat constructor.
  - exact (filter_rules_noop {[ "rules" := JArr [] ]} [] eq_refl (Forall_nil_2 _)).
Defined.

Lemma filter_rules_bad_entry_witness :
  pop_fields rule_fields JNull
    = Raise (TypeError "argument of type 'NoneType' is not iterable") /\
  filter_rules (JObj broken_listing)
    = Raise (TypeError "argument of type 'NoneType' is not iterable").
Proof.
  split; [reflexivity|].
  exact (filter_rules_bad_entry broken_listing [a_rule] JNull [JObj a_rule] _ eq_refl eq_refl).
Defined.

Lemma get_rule_normalizes_witness :
  exists s' tr (m' : gmap string json),
    fx_get_rule (canned (ok (JObj a_rule))) "rs-1" "r-1" 0%nat (client0, 0%nat)
      = Some (Ret (JObj m'), s', tr) /\
    m' !! "rulesetId" = None /\ m' !! "createdAt" = None /\
    m' !! "severityOfAlert" = Some (JInt 2).
Proof.
  assert (Hg : invoke (fx_get (canned (ok (JObj a_rule)))
                         ("https://api.threatstack.com/v2/rulesets/" +:+ "rs-1" +:+
                          "/rules/" +:+ "r-1"))
                 0%nat (client0, 0%nat)
               = Some (Ret (JObj a_rule),
                       (fx_get_wrapped (canned (ok (JObj a_rule)))
                          ("https://api.threatstack.com/v2/rulesets/" +:+ "rs-1" +:+
                           "/rules/" +:+ "r-1") (client0, 0%nat)).2,
                       [EvCall])) by reflexivity.
  destruct (get_rule_normalizes fmt_seconds None (fun h => h) clock_Sender
              (canned (ok (JObj a_rule))) fx_decode_error None "rs-1" "r-1" 0%nat _ _ _ _ Hg)
    as (m' & Ha & Hk & _).
  eexists _, _, m'. split; [exact Ha|].
  split; [exact (Hk "rulesetId")|]. split; [exact (Hk "createdAt")|].
  exact (Hk "severityOfAlert").
Defined.

Lemma get_rule_tags_normalizes_witness :
  exists s' tr,
    fx_get_rule_tags (canned (ok (JObj some_tags))) "r-1" 0%nat (client0, 0%nat)
      = Some (Ret (JObj (delete "errors" some_tags)), s', tr) /\
    delete "errors" some_tags !! "errors" = None /\
    delete "errors" some_tags !! "tags" = Some (JArr [JStr "env:prod"]).
Proof.
  assert (Hg : invoke (fx_get (canned (ok (JObj some_tags)))
                         ("https://api.threatstack.com/v2/rules/" +:+ "r-1" +:+ "/tags"))
                 0%nat (client0, 0%nat)
               = Some (Ret (JObj some_tags),
                       (fx_get_wrapped (canned (ok (JObj some_tags)))
                          ("https://api.threatstack.com/v2/rules/" +:+ "r-1" +:+ "/tags")
                          (client0, 0%nat)).2,
                       [EvCall])) by reflexivity.
  destruct (get_rule_tags_normalizes fmt_seconds None (fun h => h) clock_Sender
              (canned (ok (JObj some_tags))) fx_decode_error None "r-1" 0%nat _ _ _ _ Hg) as (Ha & Hk & _).
  eexists _, _. split; [exact Ha|].
  split; [exact (Hk "errors") | exact (Hk "tags")].
Defined.

Lemma get_json_ignores_status_witness :
  status_code throttled_json = 429 /\
  invoke (fx_get (canned throttled_json) "https://api.threatstack.com/v2/rulesets")
    0%nat (client0, 0%nat)
  = Some (Ret (JObj ∅), (stale_client, 1%nat), [EvCall]).
Proof.
  split; [reflexivity|].
  exact (get_json_ignores_status fmt_seconds None (fun h => h) clock_Sender
           (canned throttled_json) fx_decode_error None "https://api.threatstack.com/v2/rulesets"
           client0 0%nat _ _ throttled_json _ (JObj ∅) 0%nat eq_refl eq_refl eq_refl).
Defined.

Lemma get_wrapped_ignores_stored_signer_witness :
  client0 <> stale_client /\
  (fx_get_wrapped (canned throttled) "https://api.threatstack.com/v2/rulesets"
     (client0, 5%nat)).1
  = (fx_get_wrapped (canned throttled) "https://api.threatstack.com/v2/rulesets"
       (stale_client, 5%nat)).1.
Proof.
  split; [discriminate|].
  exact (proj1 (get_wrapped_ignores_stored_signer (fun h => h) clock_Sender
                  (canned throttled) fx_decode_error None "https://api.threatstack.com/v2/rulesets"
                  client0 stale_client 5%nat eq_refl eq_refl)).
Defined.

Lemma get_other_exception_not_retried_witness :
  invoke (fx_get refusing "https://api.threatstack.com/v2/rulesets") 0%nat (client0, 0%nat)
  = Some (Raise (OtherError "requests.exceptions.ConnectionError"
                   [COther "requests.exceptions.RequestException"; COSError; CException]
                   "connection refused"),
          (stale_client, 1%nat), [EvCall]).
Proof.
  exact (get_other_exception_not_retried fmt_seconds None (fun h => h) clock_Sender
           refusing fx_decode_error None "https://api.threatstack.com/v2/rulesets"
           client0 0%nat _ _ _ _ 0%nat eq_refl eq_refl eq_refl).
Defined.

Lemma get_exhausts_after_three_witness :
  exists s' tr,
    invoke (fx_get_bound (canned server_error) "https://api.threatstack.com/v2/rulesets")
      0%nat (client0, 0%nat)
    = Some (Raise (RetryLimitExceeded
                     "Exceeded max of 3 tries. Raise the delay limit of 30 or number of tries"),
            s', tr) /\
    invocations tr = 3%nat /\ sleeps tr = 3%nat.
Proof.
  refine (get_exhausts_after_three fmt_seconds (Some 30) (fun h => h) clock_Sender
            (canned server_error) fx_decode_error None
            "https://api.threatstack.com/v2/rulesets" 30 eq_refl _ _
            0%nat client0 0%nat).
  - intros c u mth b ct ext w. eexists _, _. reflexivity.
  - intros headers w. exists server_error, w. split; [reflexivity|]. split; [reflexivity|].
    discriminate.
Defined.

(** * The field loop on a JSON array *)

Lemma contains_list field (l : list json) :
  exists b : bool, contains field (JArr l) = Ret b /\ (b = true <-> JStr field ∈ l).
Proof.
  eexists. split; [reflexivity|].
  induction l as [|x l IH]; simpl.
  - split; [done|]. by intros ?%elem_of_nil.
  - rewrite orb_true_iff, IH, elem_of_cons.
    destruct x as [| | | |s| |];
      try (split; [by intros [?|?]; [|right] | by intros [?|?]; [|right]]).
    rewrite String.eqb_eq. split; (intros [?|?]; [left; congruence | by right]).
Qed.

(** X18.  When the response is a JSON array, the loop of lines 186-188
    looks for the field names among the array's own elements.  If none of
    them is an element, the array comes back unchanged, dicts inside it
    included; if one is, [list.pop] is called with a string and raises
    [TypeError]. *)
Theorem pop_fields_array fields (l : list json) :
  (Forall (fun field => JStr field ∉ l) fields ->
   pop_fields fields (JArr l) = Ret (JArr l)) /\
  (Exists (fun field => JStr field ∈ l) fields ->
   pop_fields fields (JArr l)
     = Raise (TypeError "'str' object cannot be interpreted as an integer")).
Proof.
  split.
  - induction 1 as [|field fields Hnot _ IH]; [done|].
    cbn [pop_fields]. destruct (contains_list field l) as (b & -> & Hb).
    destruct b; [by destruct Hnot; apply Hb|]. exact IH.
  - induction fields as [|field fields IH]; intros Hex; [by apply Exists_nil in Hex|].
    cbn [pop_fields]. destruct (contains_list field l) as (b & -> & Hb).
    destruct b; [done|]. cbn [bind]. apply IH.
    apply Exists_cons in Hex as [Hin|?]; [|done].
    apply Hb in Hin. discriminate.
Qed.

Lemma pop_fields_array_witness :
  pop_fields ruleset_fields (JArr [JObj a_ruleset; JStr "updatedAtt"])
    = Ret (JArr [JObj a_ruleset; JStr "updatedAtt"]) /\
  pop_fields ruleset_fields (JArr [JObj a_ruleset; JStr "createdAt"])
    = Raise (TypeError "'str' object cannot be interpreted as an integer").
Proof.
  split.
  - refine (proj1 (pop_fields_array ruleset_fields [JObj a_ruleset; JStr "updatedAtt"]) _).
    repeat constructor; intros H;
      repeat (apply elem_of_cons in H as [H|H]; [discriminate H|]);
      by apply elem_of_nil in H.
  - refine (proj2 (pop_fields_array ruleset_fields [JObj a_ruleset; JStr "createdAt"]) _).
    apply Exists_cons. right. apply Exists_cons. left.
    apply elem_of_cons. right. apply elem_of_cons. by left.
Defined.

(** ** Which exceptions a handler catches *)

Example caught_OSError_catches_URLError :
  caught [COther "OSError"] (URLError "timed out") = true /\
  caught [COSError] (URLError "timed out") = true /\
  caught [CException] (NameError "delay") = true.
Proof. repeat split. Qed.

Example caught_get_exc_catches_HTTPError :
  caught get_exc (OtherError "urllib.error.HTTPError" [] "HTTP Error 404") = true /\
  caught get_exc (WithContext (URLError "no JSON") (ValueError "Expecting value")) = true.
Proof. repeat split. Qed.

Example caught_get_exc_passes_others :
  caught get_exc
    (OtherError "requests.exceptions.ConnectionError"
       [COther "requests.exceptions.RequestException"; COSError; CException]
       "connection refused") = false /\
  caught get_exc (KeyError (JStr "id")) = false /\
  caught [CLookupError] (KeyError (JStr "id")) = true.
Proof. repeat split. Qed.

(** A policy for [OSError] retries a [URLError]: two invocations, two
    sleeps, then [RetryLimitExceeded]. *)
Example retry_catches_subclasses :
  new_f fmt_seconds (Some 30) None [COther "OSError"] 2 (always_raises (URLError "timed out"))
    0%nat 0%nat
  = Some (Raise (RetryLimitExceeded
                   "Exceeded max of 2 tries. Raise the delay limit of 30 or number of tries"),
          2%nat,
          [EvCall; EvLog (URLError "timed out"); EvPrint (URLError "timed out"); EvSleep 30;
           EvCall; EvLog (URLError "timed out"); EvPrint (URLError "timed out"); EvSleep 30]).
Proof. reflexivity. Qed.
